(** * AI diagram generator: generation pipeline, rendering adapter, history view

    A shallow embedding of the view logic of the application
    (TextPromptGenerator, DatasetUploader, PDFProcessor, DiagramViewer,
    DiagramHistory) and the properties of its specification.

    Conventions of the embedding.
    - A JavaScript string is a [string]: a sequence of code units, each below
      256.  [length] counts code units, as [String.prototype.length] does.
    - A React state hook is a field of the component's state record; an event
      handler is a computation in the monad [M] below, which threads the
      component state and the trace of calls made to the collaborators
      (auth, completion service, record store, object storage, text
      extraction, toast notifications), and which can raise.
    - The hosted collaborators are a record of oracles, [Env]: each call may
      resolve with a value or reject with an error.
    - State updates made by an asynchronous function are rendered before the
      promise it awaits next settles; what a ref points at follows what the
      component returns ([DiagramViewer.rerender]). *)

From Stdlib Require Import String Ascii List Bool ZArith NArith Lia Floats.
From Stdlib Require Import DecimalString.
From stdpp Require Import gmap strings.

Import ListNotations.
Local Open Scope string_scope.

(** ** JavaScript strings *)

Module JS.

Definition LF : ascii := "010"%char.
Definition dquote : ascii := "034"%char.

(** One-character strings used inside templates. *)
Definition dq : string := String dquote EmptyString.
Definition nl : string := String LF EmptyString.

(** White space and line terminators recognised by [trim], among the code
    units below 256: TAB, LF, VT, FF, CR, SP and NBSP. *)
Definition isWhiteSpace (c : ascii) : bool :=
  let n := nat_of_ascii c in
  (((9 <=? n) && (n <=? 13)) || (n =? 32) || (n =? 160))%nat.

Fixpoint trimStart (s : string) : string :=
  match s with
  | EmptyString => EmptyString
  | String c s' => if isWhiteSpace c then trimStart s' else s
  end.

Fixpoint trimEnd (s : string) : string :=
  match s with
  | EmptyString => EmptyString
  | String c s' =>
      match trimEnd s' with
      | EmptyString => if isWhiteSpace c then EmptyString else String c EmptyString
      | t => String c t
      end
  end.

(** [s.trim()] *)
Definition trim (s : string) : string := trimEnd (trimStart s).

(** [s.toLowerCase()] on code units below 256: A-Z and the Latin-1 capitals
    (192-222 but the multiplication sign 215) move up by 32. *)
Definition lowerChar (c : ascii) : ascii :=
  let n := nat_of_ascii c in
  if (((65 <=? n) && (n <=? 90))
      || ((192 <=? n) && (n <=? 222) && negb (n =? 215)))%nat
  then ascii_of_nat (n + 32) else c.

Fixpoint toLowerCase (s : string) : string :=
  match s with
  | EmptyString => EmptyString
  | String c s' => String (lowerChar c) (toLowerCase s')
  end.

(** [s.endsWith(suf)] *)
Fixpoint endsWith (s suf : string) : bool :=
  if String.eqb s suf then true
  else match s with
       | EmptyString => false
       | String _ s' => endsWith s' suf
       end.

(** [s.slice(0, n)] *)
Fixpoint slice0 (n : nat) (s : string) : string :=
  match n, s with
  | S n', String c s' => String c (slice0 n' s')
  | _, _ => EmptyString
  end.

(** The rest of [s] after the literal [lit], when [s] starts with it. *)
Fixpoint dropPrefix (lit s : string) : option string :=
  match lit, s with
  | EmptyString, _ => Some s
  | String a lit', String b s' =>
      if Ascii.eqb a b then dropPrefix lit' s' else None
  | String _ _, EmptyString => None
  end.

(** [s.startsWith(p)] *)
Definition startsWith (s p : string) : bool :=
  match dropPrefix p s with
  | Some _ => true
  | None => false
  end.

(** [s.includes(sub)] *)
Fixpoint includes (s sub : string) : bool :=
  if startsWith s sub then true
  else match s with
       | EmptyString => false
       | String _ s' => includes s' sub
       end.

(** The optional line feed that ends the two fence patterns. *)
Definition dropNewline (s : string) : string :=
  match s with
  | String c s' => if Ascii.eqb c LF then s' else s
  | EmptyString => EmptyString
  end.

(** [s.replace(/<lit>\n?/g, '')] for a literal [lit] that is not empty: the
    scan goes left to right; at a match the literal and one following line
    feed are dropped and the scan resumes after them, elsewhere the code
    unit is kept.  The fuel is the number of scan steps left. *)
Fixpoint removeAll (fuel : nat) (lit s : string) : string :=
  match fuel with
  | O => s
  | S fuel' =>
      match s with
      | EmptyString => EmptyString
      | String c s' =>
          match dropPrefix lit s with
          | Some r => removeAll fuel' lit (dropNewline r)
          | None => String c (removeAll fuel' lit s')
          end
      end
  end.

Definition replaceGlobal (lit s : string) : string :=
  removeAll (S (String.length s)) lit s.

(** [String(n)] for a non-negative integer. *)
Definition showN (n : N) : string :=
  NilEmpty.string_of_uint (N.to_uint n).

(** Truthiness of a string: the empty string is falsy. *)
Definition truthy (s : string) : bool := negb (String.eqb s "").

(** Lines joined by line feeds: how the multi-line template literals of
    the source are written below, one source line per element. *)
Fixpoint lines (l : list string) : string :=
  match l with
  | [] => ""
  | [x] => x
  | x :: r => x ++ nl ++ lines r
  end.

End JS.

(** ** Errors, effects and collaborators *)

(** A thrown value: an [Error] with its message, or anything else. *)
Inductive JsError : Type :=
| ErrorObj (message : string)
| Thrown.

(** Completion of a call that can throw, or of an awaited promise. *)
Inductive res (A : Type) : Type :=
| Ok (a : A)
| Raise (e : JsError).
Arguments Ok {A} a.
Arguments Raise {A} e.

(** The persisted entity, with the fields the three producing views write. *)
Module Diagram.
Record t : Type := mk {
  id : string;
  userId : string;
  title : string;
  type : string;
  prompt : option string;
  diagramCode : string;
  sourceFile : option string;
  sourceData : option string;
  extractedText : option string;
  createdAt : string
}.
End Diagram.

Record Toast : Type := mkToast {
  toast_title : string;
  toast_description : string;
  toast_destructive : bool
}.

Record File : Type := mkFile {
  file_name : string;
  file_size : N
}.

Record User : Type := mkUser { user_id : string }.

(** What a handler does to the outside, in order. *)
Inductive Event : Type :=
| AuthMe
| GenerateText (prompt model : string)
| DbCreate (r : Diagram.t)
| DbDelete (diagramId : string)
| DbList (userId : string) (limit : nat)
| StorageUpload (f : File) (path : string)
| ExtractFromUrl (url : string)
| Confirm (message : string)
| ShowToast (t : Toast).

(** Calls to the hosted collaborators; a toast or a confirmation dialog is
    local to the browser. *)
Definition isExternalCall (e : Event) : bool :=
  match e with
  | ShowToast _ | Confirm _ => false
  | _ => true
  end.

Definition isGenerateText (e : Event) : bool :=
  match e with GenerateText _ _ => true | _ => false end.

(** The collaborators as oracles, and the clock. *)
Record Env : Type := mkEnv {
  auth_me : res User;
  ai_generateText : string -> string -> res string;
  db_create : Diagram.t -> res unit;
  db_delete : string -> res unit;
  db_list : string -> res (list Diagram.t);
  storage_upload : File -> string -> res string;
  data_extractFromUrl : string -> res string;
  window_confirm : string -> bool;
  Date_now : N;
  Date_toISOString : string
}.

(** Handlers: state of the component, trace of events, exceptions. *)
Section Handlers.
Context {St : Type}.

Definition M (A : Type) : Type :=
  St -> list Event -> res A * St * list Event.

Definition ret {A} (a : A) : M A := fun s tr => (Ok a, s, tr).

Definition bind {A B} (m : M A) (k : A -> M B) : M B :=
  fun s tr =>
    match m s tr with
    | (Ok a, s', tr') => k a s' tr'
    | (Raise e, s', tr') => (Raise e, s', tr')
    end.

(** [throw e] *)
Definition throw {A} (e : JsError) : M A := fun s tr => (Raise e, s, tr).

(** [try { m } catch (e) { h e }] *)
Definition tryCatch {A} (m : M A) (h : JsError -> M A) : M A :=
  fun s tr =>
    match m s tr with
    | (Ok a, s', tr') => (Ok a, s', tr')
    | (Raise e, s', tr') => h e s' tr'
    end.

(** [try { m } finally { fin }]: [fin] runs on both exits; what [m]
    raised is raised again after it. *)
Definition tryFinally {A} (m : M A) (fin : M unit) : M A :=
  fun s tr =>
    match m s tr with
    | (r, s', tr') =>
        match fin s' tr' with
        | (Ok _, s'', tr'') => (r, s'', tr'')
        | (Raise e, s'', tr'') => (Raise e, s'', tr'')
        end
    end.

Definition get : M St := fun s tr => (Ok s, s, tr).

(** A state setter. *)
Definition modify (f : St -> St) : M unit := fun s tr => (Ok tt, f s, tr).

(** An effect on the outside and its completion. *)
Definition call {A} (e : Event) (r : res A) : M A :=
  fun s tr => (r, s, (tr ++ [e])%list).

(** A library call that can throw and is not traced. *)
Definition attempt {A} (r : res A) : M A := fun s tr => (r, s, tr).

Definition toast (title description : string) (destructive : bool) : M unit :=
  call (ShowToast (mkToast title description destructive)) (Ok tt).

(** Running a handler from a state, with an empty trace. *)
Definition run {A} (m : M A) (s : St) : res A * St * list Event := m s [].

End Handlers.
Arguments M : clear implicits.

Notation "'let*' x ':=' m 'in' k" := (bind m (fun x => k))
  (at level 10, x name, m at level 100, k at level 200).
Notation "m ';;' k" := (bind m (fun _ => k))
  (at level 100, k at level 200, right associativity).

Definition result {A St} (o : res A * St * list Event) : res A := fst (fst o).
Definition final {A St} (o : res A * St * list Event) : St := snd (fst o).
Definition trace {A St} (o : res A * St * list Event) : list Event := snd o.

(** Unfolds the combinators of [M] and nothing else: the templates and the
    numerals of the handlers stay as they are written. *)
Ltac run_handler :=
  cbv beta iota zeta delta
    [run result final trace bind tryFinally tryCatch call toast modify get
     ret throw attempt fst snd app].

(** The calls to the hosted collaborators in a trace, in order. *)
Definition externalCalls (tr : list Event) : list Event :=
  List.filter isExternalCall tr.

(** The toasts of a trace, in order. *)
Definition toasts (tr : list Event) : list Toast :=
  flat_map (fun e => match e with ShowToast t => [t] | _ => [] end) tr.

(** No event of the trace is a call to a hosted collaborator. *)
Definition noExternalCall (tr : list Event) : Prop :=
  forallb (fun e => negb (isExternalCall e)) tr = true.

(** The records handed to the store, in order. *)
Definition created (tr : list Event) : list Diagram.t :=
  flat_map (fun e => match e with DbCreate r => [r] | _ => [] end) tr.

(** [o || d] for a table entry that may be missing: [undefined] and the
    empty string are falsy.  The tables are read on their own properties,
    which is what a lookup gives for the kinds of the selectors. *)
Definition orElse (o : option string) (d : string) : string :=
  match o with
  | Some v => if JS.truthy v then v else d
  | None => d
  end.

(** ** TextPromptGenerator: the prompt flow *)

Module TextPromptGenerator.

(** The values of [DIAGRAM_TYPES], offered by the kind selector. *)
Definition DIAGRAM_TYPES : list string :=
  [ "flowchart"; "mindmap"; "sequence"; "class"; "gantt"; "pie"; "bar";
    "network" ].

Record State : Type := mkState {
  prompt : string;
  diagramType : string;
  isGenerating : bool;
  generatedDiagram : option Diagram.t
}.

Definition initial : State := mkState "" "" false None.

Definition setIsGenerating (b : bool) (s : State) : State :=
  mkState (prompt s) (diagramType s) b (generatedDiagram s).

Definition setGeneratedDiagram (d : option Diagram.t) (s : State) : State :=
  mkState (prompt s) (diagramType s) (isGenerating s) d.

(** The instruction templates, one per kind that has one.  The table is
    read by its own keys, which is what the source does for every kind of
    the selectors; for a name that every object inherits ([constructor],
    [toString], ...) the source reads a value that is no string and ends in
    the catch clause of the handler, so what is stated about the
    instruction or the skeleton is stated for the kinds of the selectors. *)
Definition diagramPrompts (prompt : string) : gmap string string :=
  list_to_map
  [ ("flowchart", JS.lines
    [ "Create a Mermaid flowchart for: " ++ JS.dq ++ prompt ++ JS.dq ++ ". ";
      "        ";
      "        Use this exact format:";
      "        flowchart TD";
      "            A[Start] --> B{Decision}";
      "            B -->|Yes| C[Action 1]";
      "            B -->|No| D[Action 2]";
      "            C --> E[End]";
      "            D --> E";
      "        ";
      "        Make it comprehensive and educational. Use proper Mermaid flowchart syntax with nodes, arrows, and labels.";
      "        Return ONLY the Mermaid code starting with " ++ JS.dq ++ "flowchart TD" ++ JS.dq ++ "." ]);
    ("mindmap", JS.lines
    [ "Create a Mermaid mindmap for: " ++ JS.dq ++ prompt ++ JS.dq ++ ".";
      "        ";
      "        Use this exact format:";
      "        mindmap";
      "          root((" ++ JS.slice0 20 prompt ++ "))";
      "            Branch1";
      "              SubBranch1";
      "              SubBranch2";
      "            Branch2";
      "              SubBranch3";
      "              SubBranch4";
      "        ";
      "        Make it comprehensive with multiple branches and sub-branches.";
      "        Return ONLY the Mermaid code starting with " ++ JS.dq ++ "mindmap" ++ JS.dq ++ "." ]);
    ("sequence", JS.lines
    [ "Create a Mermaid sequence diagram for: " ++ JS.dq ++ prompt ++ JS.dq ++ ".";
      "        ";
      "        Use this exact format:";
      "        sequenceDiagram";
      "            participant A as Actor A";
      "            participant B as Actor B";
      "            A->>B: Message 1";
      "            B-->>A: Response 1";
      "            A->>B: Message 2";
      "            B-->>A: Response 2";
      "        ";
      "        Make it comprehensive with proper actors and message flows.";
      "        Return ONLY the Mermaid code starting with " ++ JS.dq ++ "sequenceDiagram" ++ JS.dq ++ "." ]);
    ("class", JS.lines
    [ "Create a Mermaid class diagram for: " ++ JS.dq ++ prompt ++ JS.dq ++ ".";
      "        ";
      "        Use this exact format:";
      "        classDiagram";
      "            class ClassName1 {";
      "                +attribute1 : type";
      "                +method1() : returnType";
      "            }";
      "            class ClassName2 {";
      "                +attribute2 : type";
      "                +method2() : returnType";
      "            }";
      "            ClassName1 --> ClassName2";
      "        ";
      "        Make it comprehensive with proper classes, attributes, and relationships.";
      "        Return ONLY the Mermaid code starting with " ++ JS.dq ++ "classDiagram" ++ JS.dq ++ "." ]);
    ("gantt", JS.lines
    [ "Create a Mermaid Gantt chart for: " ++ JS.dq ++ prompt ++ JS.dq ++ ".";
      "        ";
      "        Use this exact format:";
      "        gantt";
      "            title Project Timeline";
      "            dateFormat  YYYY-MM-DD";
      "            section Phase 1";
      "            Task 1           :a1, 2024-01-01, 30d";
      "            Task 2           :after a1, 20d";
      "            section Phase 2";
      "            Task 3           :2024-02-01, 25d";
      "            Task 4           :20d";
      "        ";
      "        Make it comprehensive with multiple sections and tasks.";
      "        Return ONLY the Mermaid code starting with " ++ JS.dq ++ "gantt" ++ JS.dq ++ "." ]) ].

(** The instruction sent to the completion service. *)
Definition promptToUse (prompt diagramType : string) : string :=
  orElse (diagramPrompts prompt !! diagramType)
    ("Create a " ++ diagramType ++ " diagram for: " ++ JS.dq ++ prompt
     ++ JS.dq ++ ". Use proper Mermaid syntax and return only the diagram code.").

(** The skeletons used when the completion call fails. *)
Definition fallbackDiagrams (prompt : string) : gmap string string :=
  list_to_map
  [ ("flowchart", JS.lines
    [ "flowchart TD";
      "    A[" ++ JS.dq ++ JS.slice0 30 prompt ++ JS.dq ++ "] --> B{Analysis}";
      "    B -->|Step 1| C[Process]";
      "    B -->|Step 2| D[Alternative]";
      "    C --> E[Result]";
      "    D --> E";
      "    E --> F[End]" ]);
    ("mindmap", JS.lines
    [ "mindmap";
      "  root((" ++ JS.dq ++ JS.slice0 20 prompt ++ JS.dq ++ "))";
      "    Key Concept 1";
      "      Detail A";
      "      Detail B";
      "    Key Concept 2";
      "      Detail C";
      "      Detail D";
      "    Key Concept 3";
      "      Detail E";
      "      Detail F" ]);
    ("sequence", JS.lines
    [ "sequenceDiagram";
      "    participant User";
      "    participant System";
      "    User->>System: Request";
      "    System-->>User: Processing";
      "    System->>System: Internal Process";
      "    System-->>User: Response" ]);
    ("class", JS.lines
    [ "classDiagram";
      "    class MainConcept {";
      "        +property1 : string";
      "        +property2 : number";
      "        +method1() : void";
      "    }";
      "    class RelatedConcept {";
      "        +relatedProp : string";
      "        +relatedMethod() : string";
      "    }";
      "    MainConcept --> RelatedConcept" ]);
    ("gantt", JS.lines
    [ "gantt";
      "    title " ++ JS.slice0 30 prompt;
      "    dateFormat  YYYY-MM-DD";
      "    section Phase 1";
      "    Planning           :a1, 2024-01-01, 30d";
      "    Research           :after a1, 20d";
      "    section Phase 2";
      "    Development        :2024-02-01, 25d";
      "    Testing            :20d" ]) ].

(** The description synthesised in the [catch] of the completion call. *)
Definition fallbackCode (prompt diagramType : string) : string :=
  orElse (fallbackDiagrams prompt !! diagramType)
    (JS.lines
       [ "flowchart TD";
         "    A[" ++ JS.dq ++ prompt ++ JS.dq ++ "] --> B[Generated Diagram]";
         "    B --> C[Success]" ]).

(** "Clean up the diagram code": both fence patterns removed, then trim. *)
Definition cleanUp (diagramCode : string) : string :=
  JS.trim (JS.replaceGlobal "```" (JS.replaceGlobal "```mermaid" diagramCode)).

(** The completion call: its text trimmed, or the skeleton when it throws. *)
Definition generateCode (env : Env) (prompt diagramType : string)
  : M State string :=
  tryCatch
    (let* text := call (GenerateText (promptToUse prompt diagramType) "gpt-4o-mini")
                       (ai_generateText env (promptToUse prompt diagramType)
                          "gpt-4o-mini") in
     ret (JS.trim text))
    (fun aiError => ret (fallbackCode prompt diagramType)).

Definition diagramData (env : Env) (user : User)
    (prompt diagramType diagramCode : string) : Diagram.t :=
  {| Diagram.id := "diagram_" ++ JS.showN (Date_now env);
     Diagram.userId := user_id user;
     Diagram.title := JS.slice0 100 prompt;
     Diagram.type := diagramType;
     Diagram.prompt := Some prompt;
     Diagram.diagramCode := diagramCode;
     Diagram.sourceFile := None;
     Diagram.sourceData := None;
     Diagram.extractedText := None;
     Diagram.createdAt := Date_toISOString env |}.

Definition handleGenerate (env : Env) : M State unit :=
  let* st := get in
  if negb (JS.truthy (JS.trim (prompt st))) then
    toast "Please enter a prompt" "Describe what you'd like to visualize" true
  else if negb (JS.truthy (diagramType st)) then
    toast "Please select a diagram type"
          "Choose the type of diagram you want to create" true
  else
    modify (setIsGenerating true) ;;
    tryFinally
      (tryCatch
         (let* user := call AuthMe (auth_me env) in
          let* diagramCode := generateCode env (prompt st) (diagramType st) in
          let diagramCode := cleanUp diagramCode in
          let data := diagramData env user (prompt st) (diagramType st)
                                  diagramCode in
          call (DbCreate data) (db_create env data) ;;
          modify (setGeneratedDiagram (Some data)) ;;
          toast "Diagram generated successfully!"
                "Your diagram is ready for viewing and editing" false)
         (fun error =>
            toast "Generation failed"
                  "Please try again with a different prompt" true))
      (modify (setIsGenerating false)).

End TextPromptGenerator.

(** ** Numbers read by [parseFloat] *)

Module Num.

(** The value [parseFloat] denotes: not-a-number, an infinity, or the
    signed decimal [mantissa * 10 ^ exponent] that was read.  The rounding
    of that decimal to a binary64 is not part of the model: a literal
    beyond the range of binary64 stays a finite decimal here, where the
    source reads an infinity or a zero. *)
Inductive t : Type :=
| NaN
| Infinity (negative : bool)
| Dec (negative : bool) (mantissa : N) (exponent : Z).

(** The literal [0]. *)
Definition zero : t := Dec false 0 0.

Definition isNaN (n : t) : bool :=
  match n with NaN => true | _ => false end.

(** Truthiness of a number: [NaN], [0] and [-0] are falsy. *)
Definition truthy (n : t) : bool :=
  match n with
  | NaN => false
  | Infinity _ => true
  | Dec _ m _ => negb (N.eqb m 0)
  end.

(** [a || b] *)
Definition or (a b : t) : t := if truthy a then a else b.

Definition digitOf (c : ascii) : option N :=
  let n := nat_of_ascii c in
  if ((48 <=? n) && (n <=? 57))%nat then Some (N.of_nat (n - 48)) else None.

(** The longest run of decimal digits at the head of [s], accumulated
    onto [acc]; how many there were; the rest. *)
Fixpoint readDigits (s : string) (acc : N) (count : nat)
  : N * nat * string :=
  match s with
  | String c s' =>
      match digitOf c with
      | Some d => readDigits s' (10 * acc + d)%N (S count)
      | None => (acc, count, s)
      end
  | EmptyString => (acc, count, s)
  end.

Definition readSign (s : string) : bool * string :=
  match s with
  | String "-" r => (true, r)
  | String "+" r => (false, r)
  | _ => (false, s)
  end.

(** An exponent part [e], [E] with an optional sign and at least one
    digit; [0] when there is none. *)
Definition readExponent (s : string) : Z :=
  match s with
  | String c r =>
      if (Ascii.eqb c "e" || Ascii.eqb c "E")%bool then
        let '(eneg, r') := readSign r in
        let '(ev, ne, _) := readDigits r' 0%N 0%nat in
        if (ne =? 0)%nat then 0%Z
        else if eneg then (- Z.of_N ev)%Z else Z.of_N ev
      else 0%Z
  | EmptyString => 0%Z
  end.

(** [parseFloat(s)]: leading white space skipped, then the longest prefix
    that is a decimal literal; [NaN] when there is none. *)
Definition parseFloat (s : string) : t :=
  let '(neg, s0) := readSign (JS.trimStart s) in
  if JS.startsWith s0 "Infinity" then Infinity neg
  else
    let '(ip, ni, s1) := readDigits s0 0%N 0%nat in
    let '(m, nf, s2) :=
      match s1 with
      | String "." r => readDigits r ip 0%nat
      | _ => (ip, 0%nat, s1)
      end in
    if (ni + nf =? 0)%nat then NaN
    else Dec neg m (readExponent s2 - Z.of_nat nf)%Z.

(** [parseFloat] of a property read: [undefined] reads as the string
    "undefined", which is no number. *)
Definition parseFloatValue (v : option string) : t :=
  match v with
  | Some s => parseFloat s
  | None => NaN
  end.

End Num.

(** ** DatasetUploader: the dataset flow *)

Module DatasetUploader.

Definition CHART_TYPES : list string := [ "bar"; "pie"; "line"; "scatter" ].

(** A parsed CSV row: header to cell text. *)
Abbreviation Row := (gmap string string).

Record Columns : Type := mkColumns {
  col_x : string;
  col_y : string;
  col_label : string
}.

(** An element of [chartData]; a property read from a row that lacks the
    column is [undefined], here [None]. *)
Record Point : Type := mkPoint {
  x : option string;
  y : Num.t;
  label : option string
}.

Record State : Type := mkState {
  file : option File;
  chartType : string;
  isProcessing : bool;
  parsedData : list Row;
  columns : list string;
  selectedColumns : Columns;
  generatedChart : option Diagram.t
}.

Definition setIsProcessing (b : bool) (s : State) : State :=
  mkState (file s) (chartType s) b (parsedData s) (columns s)
          (selectedColumns s) (generatedChart s).

Definition setGeneratedChart (d : option Diagram.t) (s : State) : State :=
  mkState (file s) (chartType s) (isProcessing s) (parsedData s) (columns s)
          (selectedColumns s) d.

(** "Prepare data for chart generation" *)
Definition toPoint (sel : Columns) (row : Row) : Point :=
  {| x := row !! col_x sel;
     y := Num.or (Num.parseFloatValue (row !! col_y sel)) Num.zero;
     label := if JS.truthy (col_label sel) then row !! col_label sel
              else row !! col_x sel |}.

Definition chartData (sel : Columns) (rows : list Row) : list Point :=
  List.filter (fun item => negb (Num.isNaN (y item)))
              (List.map (toPoint sel) rows).

(** [file?.name] inside a template. *)
Definition fileName (f : option File) : string :=
  match f with
  | Some f => file_name f
  | None => "undefined"
  end.

Section Flow.
(** [JSON.stringify] on lists of points, as the runtime provides it. *)
Variable JSON_stringify : list Point -> string.

Definition chartPrompt (chartType : string) (sel : Columns)
    (data : list Point) : string :=
  JS.lines
  [ "Create a " ++ chartType ++ " chart using the following data:";
    "        ";
    "        Data: " ++ JSON_stringify (firstn 20 data) ++ " "
      ++ (if (20 <? List.length data)%nat then "...(truncated)" else "");
    "        ";
    "        X-axis: " ++ col_x sel;
    "        Y-axis: " ++ col_y sel;
    "        " ++ (if JS.truthy (col_label sel)
                   then "Labels: " ++ col_label sel else "");
    "        ";
    "        Generate appropriate Mermaid chart syntax or data visualization code.";
    "        Make it visually appealing and informative.";
    "        Return only the chart code without explanations." ].

Definition chartDiagram (env : Env) (user : User) (st : State)
    (data : list Point) (chartCode : string) : Diagram.t :=
  {| Diagram.id := "chart_" ++ JS.showN (Date_now env);
     Diagram.userId := user_id user;
     Diagram.title := chartType st ++ " chart from " ++ fileName (file st);
     Diagram.type := chartType st;
     Diagram.prompt :=
       Some ("Chart generated from dataset: " ++ fileName (file st));
     Diagram.diagramCode := chartCode;
     Diagram.sourceFile := None;
     Diagram.sourceData := Some (JSON_stringify data);
     Diagram.extractedText := None;
     Diagram.createdAt := Date_toISOString env |}.

Definition handleGenerateChart (env : Env) : M State unit :=
  let* st := get in
  if ((List.length (parsedData st) =? 0)%nat
      || negb (JS.truthy (chartType st))
      || negb (JS.truthy (col_x (selectedColumns st)))
      || negb (JS.truthy (col_y (selectedColumns st))))%bool
  then
    toast "Missing information"
          "Please select chart type and required columns" true
  else
    modify (setIsProcessing true) ;;
    tryFinally
      (tryCatch
         (let* user := call AuthMe (auth_me env) in
          let data := chartData (selectedColumns st) (parsedData st) in
          let instruction :=
            chartPrompt (chartType st) (selectedColumns st) data in
          let* chartCode :=
            call (GenerateText instruction "gpt-4o-mini")
                 (ai_generateText env instruction "gpt-4o-mini") in
          let d := chartDiagram env user st data chartCode in
          call (DbCreate d) (db_create env d) ;;
          modify (setGeneratedChart (Some d)) ;;
          toast "Chart generated successfully!"
                "Your data visualization is ready" false)
         (fun error =>
            toast "Chart generation failed"
                  "Please try again with different settings" true))
      (modify (setIsProcessing false)).
End Flow.

End DatasetUploader.

(** ** PDFProcessor: the document flow *)

Module PDFProcessor.

Record State : Type := mkState {
  file : option File;
  isProcessing : bool;
  progress : nat;
  extractedText : string;
  generatedMindMap : option Diagram.t;
  processingStep : string
}.

Definition initial : State := mkState None false 0 "" None "".

Definition setFile (f : option File) (s : State) : State :=
  mkState f (isProcessing s) (progress s) (extractedText s)
          (generatedMindMap s) (processingStep s).
Definition setIsProcessing (b : bool) (s : State) : State :=
  mkState (file s) b (progress s) (extractedText s)
          (generatedMindMap s) (processingStep s).
Definition setProgress (n : nat) (s : State) : State :=
  mkState (file s) (isProcessing s) n (extractedText s)
          (generatedMindMap s) (processingStep s).
Definition setExtractedText (t : string) (s : State) : State :=
  mkState (file s) (isProcessing s) (progress s) t
          (generatedMindMap s) (processingStep s).
Definition setGeneratedMindMap (d : option Diagram.t) (s : State) : State :=
  mkState (file s) (isProcessing s) (progress s) (extractedText s)
          d (processingStep s).
Definition setProcessingStep (t : string) (s : State) : State :=
  mkState (file s) (isProcessing s) (progress s) (extractedText s)
          (generatedMindMap s) t.

(** The size limit, [10 * 1024 * 1024] bytes. *)
Definition MAX_SIZE : N := 10 * 1024 * 1024.

(** [uploadedFile] is [event.target.files?.[0]]. *)
Definition handleFileUpload (uploadedFile : option File) : M State unit :=
  match uploadedFile with
  | None => ret tt
  | Some f =>
      if negb (JS.endsWith (JS.toLowerCase (file_name f)) ".pdf") then
        toast "Invalid file type" "Please upload a PDF file" true
      else if (MAX_SIZE <? file_size f)%N then
        toast "File too large"
              "Please upload a PDF file smaller than 10MB" true
      else
        modify (setFile (Some f)) ;;
        modify (setExtractedText "") ;;
        modify (setGeneratedMindMap None) ;;
        modify (setProgress 0)
  end.

Definition mindMapPrompt (extractedContent : string) : string :=
  JS.lines
  [ "Create a comprehensive mind map from the following PDF content. ";
    "        ";
    "        Content: " ++ JS.dq ++ JS.slice0 4000 extractedContent
      ++ (if (4000 <? String.length extractedContent)%nat
          then "...(truncated)" else "") ++ JS.dq;
    "        ";
    "        Generate a Mermaid mindmap syntax that:";
    "        1. Captures the main topics and subtopics";
    "        2. Shows relationships between concepts";
    "        3. Includes key details and examples";
    "        4. Is well-structured and easy to understand";
    "        5. Uses appropriate hierarchy levels";
    "        ";
    "        Make it comprehensive but not overwhelming. Focus on the most important concepts.";
    "        Return only the Mermaid mindmap code without explanations." ].

Definition mindMapData (env : Env) (user : User) (f : File)
    (publicUrl extractedContent mindMapCode : string) : Diagram.t :=
  {| Diagram.id := "mindmap_" ++ JS.showN (Date_now env);
     Diagram.userId := user_id user;
     Diagram.title := "Mind map from " ++ file_name f;
     Diagram.type := "mindmap";
     Diagram.prompt := Some ("Mind map generated from PDF: " ++ file_name f);
     Diagram.diagramCode := mindMapCode;
     Diagram.sourceFile := Some publicUrl;
     Diagram.sourceData := None;
     Diagram.extractedText := Some (JS.slice0 2000 extractedContent);
     Diagram.createdAt := Date_toISOString env |}.

(** The message of the error thrown on too little text. *)
Definition INSUFFICIENT_TEXT : string :=
  "Could not extract sufficient text from PDF".

(** [error instanceof Error ? error.message : "Please try again ..."] *)
Definition failureDescription (error : JsError) : string :=
  match error with
  | ErrorObj message => message
  | Thrown => "Please try again with a different PDF"
  end.

(** The handler up to its [finally]; the timer it starts there runs
    [resetProgress] two seconds later. *)
Definition handleProcessPDF (env : Env) : M State unit :=
  let* st := get in
  match file st with
  | None => ret tt
  | Some f =>
      modify (setIsProcessing true) ;;
      modify (setProgress 0) ;;
      modify (setProcessingStep "Uploading PDF...") ;;
      tryFinally
        (tryCatch
           (let* user := call AuthMe (auth_me env) in
            modify (setProgress 20) ;;
            let* publicUrl :=
              call (StorageUpload f ("pdfs/" ++ file_name f))
                   (storage_upload env f ("pdfs/" ++ file_name f)) in
            modify (setProcessingStep "Extracting text from PDF...") ;;
            modify (setProgress 40) ;;
            let* extractedContent :=
              call (ExtractFromUrl publicUrl)
                   (data_extractFromUrl env publicUrl) in
            modify (setExtractedText extractedContent) ;;
            (if (negb (JS.truthy extractedContent)
                 || (String.length (JS.trim extractedContent) <? 100)%nat)%bool
             then throw (ErrorObj INSUFFICIENT_TEXT)
             else ret tt) ;;
            modify (setProcessingStep "Generating mind map with AI...") ;;
            modify (setProgress 70) ;;
            let* mindMapCode :=
              call (GenerateText (mindMapPrompt extractedContent) "gpt-4o-mini")
                   (ai_generateText env (mindMapPrompt extractedContent)
                      "gpt-4o-mini") in
            modify (setProcessingStep "Saving mind map...") ;;
            modify (setProgress 90) ;;
            let d := mindMapData env user f publicUrl extractedContent
                                 mindMapCode in
            call (DbCreate d) (db_create env d) ;;
            modify (setGeneratedMindMap (Some d)) ;;
            modify (setProgress 100) ;;
            modify (setProcessingStep "Complete!") ;;
            toast "PDF processed successfully!"
                  "Your mind map has been generated from the PDF content"
                  false)
           (fun error =>
              toast "PDF processing failed" (failureDescription error) true))
        (modify (setIsProcessing false))
  end.

Definition resetProgress : M State unit :=
  modify (setProcessingStep "") ;; modify (setProgress 0).

(** The state the handler leaves when it stops on too little text: the
    text is kept for the preview, the step and the progress wait for the
    timer. *)
Definition rejectedState (st : State) (text : string) : State :=
  mkState (file st) false 40 text (generatedMindMap st)
          "Extracting text from PDF...".

End PDFProcessor.

(** ** DiagramHistory: the history and filter view model *)

Module DiagramHistory.

Record State : Type := mkState {
  diagrams : list Diagram.t;
  filteredDiagrams : list Diagram.t;
  isLoading : bool;
  searchTerm : string;
  filterType : string;
  selectedDiagram : option Diagram.t
}.

Definition initial : State := mkState [] [] true "" "all" None.

Definition setDiagrams (l : list Diagram.t) (s : State) : State :=
  mkState l (filteredDiagrams s) (isLoading s) (searchTerm s)
          (filterType s) (selectedDiagram s).
Definition setFilteredDiagrams (l : list Diagram.t) (s : State) : State :=
  mkState (diagrams s) l (isLoading s) (searchTerm s)
          (filterType s) (selectedDiagram s).
Definition setIsLoading (b : bool) (s : State) : State :=
  mkState (diagrams s) (filteredDiagrams s) b (searchTerm s)
          (filterType s) (selectedDiagram s).
Definition setSelectedDiagram (d : option Diagram.t) (s : State) : State :=
  mkState (diagrams s) (filteredDiagrams s) (isLoading s) (searchTerm s)
          (filterType s) d.

Definition loadDiagrams (env : Env) : M State unit :=
  modify (setIsLoading true) ;;
  tryFinally
    (tryCatch
       (let* user := call AuthMe (auth_me env) in
        let* userDiagrams :=
          call (DbList (user_id user) 50) (db_list env (user_id user)) in
        modify (setDiagrams userDiagrams))
       (fun error =>
          toast "Failed to load diagrams"
                "Please try refreshing the page" true))
    (modify (setIsLoading false)).

(** The callback of the search filter; [diagram.prompt?.] is falsy on a
    record without a prompt. *)
Definition matchesTerm (searchTerm : string) (diagram : Diagram.t) : bool :=
  JS.includes (JS.toLowerCase (Diagram.title diagram))
              (JS.toLowerCase searchTerm)
  || match Diagram.prompt diagram with
     | Some p => JS.includes (JS.toLowerCase p) (JS.toLowerCase searchTerm)
     | None => false
     end.

(** "Filter by search term" *)
Definition filterByTerm (searchTerm : string) (l : list Diagram.t)
  : list Diagram.t :=
  if JS.truthy searchTerm then List.filter (matchesTerm searchTerm) l else l.

(** "Filter by type" *)
Definition filterByType (filterType : string) (l : list Diagram.t)
  : list Diagram.t :=
  if negb (String.eqb filterType "all")
  then List.filter (fun diagram => String.eqb (Diagram.type diagram) filterType) l
  else l.

Definition filterDiagrams : M State unit :=
  let* st := get in
  let filtered := diagrams st in
  let filtered := filterByTerm (searchTerm st) filtered in
  let filtered := filterByType (filterType st) filtered in
  modify (setFilteredDiagrams filtered).

(** [selectedDiagram?.id === diagramId] *)
Definition isSelected (sel : option Diagram.t) (diagramId : string) : bool :=
  match sel with
  | Some d => String.eqb (Diagram.id d) diagramId
  | None => false
  end.

(** [prev.filter(d => d.id !== diagramId)] *)
Definition keepOthers (diagramId : string) (l : list Diagram.t)
  : list Diagram.t :=
  List.filter (fun d => negb (String.eqb (Diagram.id d) diagramId)) l.

Definition CONFIRM_DELETE : string :=
  "Are you sure you want to delete this diagram?".

Definition handleDeleteDiagram (env : Env) (diagramId : string)
  : M State unit :=
  let* st := get in
  let* ok := call (Confirm CONFIRM_DELETE)
                  (Ok (window_confirm env CONFIRM_DELETE)) in
  if negb ok then ret tt
  else
    tryCatch
      (call (DbDelete diagramId) (db_delete env diagramId) ;;
       modify (fun prev =>
                 setDiagrams (keepOthers diagramId (diagrams prev)) prev) ;;
       (if isSelected (selectedDiagram st) diagramId
        then modify (setSelectedDiagram None) else ret tt) ;;
       toast "Diagram deleted"
             "The diagram has been removed from your history" false)
      (fun error =>
         toast "Failed to delete diagram" "Please try again" true).

End DiagramHistory.

(** ** DiagramViewer: the rendering adapter *)

Module DiagramViewer.

(** The rendering library: both entry points can throw. *)
Record Mermaid : Type := mkMermaid {
  initialize : res unit;
  render : string -> string -> res string
}.

(** What [renderDiagram] writes into the container.
    - [Blank]: [innerHTML = ''];
    - [Rendered svg scale]: [innerHTML = svg], and [scale(zoom)] set as
      the transform of its svg element when it has one;
    - [FallbackRendered fallbackSvg diagramCode]: the notice "Diagram
      rendering failed, showing fallback", the fallback svg, and the
      original code inside a details element;
    - [ErrorDisplayed diagramCode]: the heading "Rendering Error", the
      text "Unable to render diagram. Raw code:", and the code inside a
      pre element. *)
Inductive View : Type :=
| Blank
| Rendered (svg : string) (scale : float)
| FallbackRendered (fallbackSvg diagramCode : string)
| ErrorDisplayed (diagramCode : string).

(** [container] is [containerRef.current]: [None] while the element that
    holds the ref is not in the document, else its content. *)
Record State : Type := mkState {
  container : option View;
  isLoading : bool;
  error : option string;
  zoom : float
}.

Definition initial : State := mkState None true None 1%float.

Definition setIsLoading (b : bool) (s : State) : State :=
  mkState (container s) b (error s) (zoom s).
Definition setError (e : option string) (s : State) : State :=
  mkState (container s) (isLoading s) e (zoom s).
Definition setZoom (f : float -> float) (s : State) : State :=
  mkState (container s) (isLoading s) (error s) (f (zoom s)).

(** [if (containerRef.current) containerRef.current.innerHTML = v] *)
Definition install (v : View) (s : State) : State :=
  match container s with
  | Some _ => mkState (Some v) (isLoading s) (error s) (zoom s)
  | None => s
  end.

(** What the component returns: the loading card while [isLoading]; else
    the controls and, below them, the error card with the message and the
    description when [error] is set, or the element that holds the ref. *)
Inductive Screen : Type :=
| LoadingCard
| ErrorCard (error diagramCode : string)
| Canvas (content : option View).

Definition screen (diagramCode : string) (s : State) : Screen :=
  if isLoading s then LoadingCard
  else match error s with
       | Some e => ErrorCard e diagramCode
       | None => Canvas (container s)
       end.

(** The component rendered again after state updates.  The element that
    holds the ref is part of what the component returns only when
    [isLoading] is false and [error] is null.  When it leaves the output it
    is detached and [containerRef.current] becomes null; when it enters the
    output it is a new, empty element; while it stays it keeps the content
    written through [innerHTML]. *)
Definition rerender (s : State) : State :=
  match isLoading s, error s, container s with
  | false, None, Some _ => s
  | false, None, None => mkState (Some Blank) false None (zoom s)
  | _, _, _ => mkState None (isLoading s) (error s) (zoom s)
  end.

(** [await p]: the function is suspended until the promise settles, and
    the state updates made so far are rendered before it goes on. *)
Definition await {A : Type} (p : res A) : M State A :=
  modify rerender ;; attempt p.

Definition fallbackCode : string :=
  JS.lines
  [ "flowchart TD";
    "    A[Diagram Rendering Failed] --> B[Raw Code Below]";
    "    B --> C[Please Check Syntax]" ].

(** [err instanceof Error ? err.message : 'Unknown error'] *)
Definition errorMessage (err : JsError) : string :=
  match err with
  | ErrorObj message => message
  | Thrown => "Unknown error"
  end.

(** One render attempt; [now1] and [now2] are the readings of the clock
    for the two element ids, [zoom] the factor of the render that started
    the attempt.  [mermaid.initialize] and the clearing of the container
    run before the first [await], on the element the effect has found; both
    calls of [mermaid.render] are awaited. *)
Definition renderDiagram (m : Mermaid) (now1 now2 : N)
    (diagramCode : string) (zoom : float) : M State unit :=
  modify (setIsLoading true) ;;
  modify (setError None) ;;
  tryFinally
    (tryCatch
       (attempt (initialize m) ;;
        modify (install Blank) ;;
        let diagramId := "diagram-" ++ JS.showN now1 in
        let* svg := await (render m diagramId diagramCode) in
        modify (install (Rendered svg zoom)))
       (fun err =>
          modify (setError
                    (Some ("Failed to render diagram: " ++ errorMessage err))) ;;
          tryCatch
            (let fallbackId := "fallback-" ++ JS.showN now2 in
             let* fallbackSvg := await (render m fallbackId fallbackCode) in
             modify (install (FallbackRendered fallbackSvg diagramCode)))
            (fun fallbackErr =>
               modify (install (ErrorDisplayed diagramCode)))))
    (modify (setIsLoading false)).

(** The effect on [diagramCode] and [zoom]. *)
Definition effect (m : Mermaid) (now1 now2 : N) (diagramCode : string)
  : M State unit :=
  let* st := get in
  match container st with
  | Some _ =>
      if JS.truthy diagramCode
      then renderDiagram m now1 now2 diagramCode (zoom st)
      else ret tt
  | None => ret tt
  end.

(** The effect for one value of [diagramCode], then the rendering of the
    state it leaves. *)
Definition pass (m : Mermaid) (now1 now2 : N) (diagramCode : string)
  : M State unit :=
  effect m now1 now2 diagramCode ;; modify rerender.

(** The viewer over the descriptions its parent hands it one after the
    other, each with the two readings of the clock. *)
Fixpoint passes (m : Mermaid) (props : list (string * N * N)) : M State unit :=
  match props with
  | [] => ret tt
  | (diagramCode, now1, now2) :: rest =>
      pass m now1 now2 diagramCode ;; passes m rest
  end.

(** [Math.min] and [Math.max] on two numbers: [NaN] if either is, and
    [-0] below [+0]. *)
Definition Math_min (a b : float) : float :=
  if (PrimFloat.is_nan a || PrimFloat.is_nan b)%bool then PrimFloat.nan
  else if PrimFloat.ltb a b then a
  else if PrimFloat.ltb b a then b
  else if PrimFloat.get_sign a then a else b.

Definition Math_max (a b : float) : float :=
  if (PrimFloat.is_nan a || PrimFloat.is_nan b)%bool then PrimFloat.nan
  else if PrimFloat.ltb b a then a
  else if PrimFloat.ltb a b then b
  else if PrimFloat.get_sign a then b else a.

(** The step, the binary64 nearest to 0.2, and the two bounds. *)
Definition STEP : float := 0x1.999999999999ap-3%float.
Definition MAX_ZOOM : float := 3%float.
Definition MIN_ZOOM : float := 0.5%float.

Definition handleZoomIn : M State unit :=
  modify (setZoom (fun prev => Math_min (PrimFloat.add prev STEP) MAX_ZOOM)).

Definition handleZoomOut : M State unit :=
  modify (setZoom (fun prev => Math_max (PrimFloat.sub prev STEP) MIN_ZOOM)).

Definition handleResetZoom : M State unit :=
  modify (setZoom (fun _ => 1%float)).

(** The zoom controls. *)
Inductive ZoomOp : Type := ZoomIn | ZoomOut | ResetZoom.

Definition handleZoom (op : ZoomOp) : M State unit :=
  match op with
  | ZoomIn => handleZoomIn
  | ZoomOut => handleZoomOut
  | ResetZoom => handleResetZoom
  end.

(** A sequence of clicks on the controls, one handler after the other. *)
Fixpoint clicks (ops : list ZoomOp) : M State unit :=
  match ops with
  | [] => ret tt
  | op :: rest => handleZoom op ;; clicks rest
  end.

(** [MIN_ZOOM <= z <= MAX_ZOOM] *)
Definition inRange (z : float) : bool :=
  (PrimFloat.leb MIN_ZOOM z && PrimFloat.leb z MAX_ZOOM)%bool.

End DiagramViewer.

(** ** Auxiliary definitions for the proofs *)

Module ZoomReach.
Import DiagramViewer.

(** The zoom factor after one click. *)
Definition step (op : ZoomOp) (z : float) : float :=
  match op with
  | ZoomIn => Math_min (PrimFloat.add z STEP) MAX_ZOOM
  | ZoomOut => Math_max (PrimFloat.sub z STEP) MIN_ZOOM
  | ResetZoom => 1%float
  end.

Fixpoint mem (x : float) (l : list float) : bool :=
  match l with
  | [] => false
  | y :: r => if PrimFloat.eqb x y then true else mem x r
  end.

(** Closure of a work list under the three controls. *)
Fixpoint close (fuel : nat) (todo seen : list float) : list float :=
  match fuel with
  | O => seen
  | S fuel' =>
      match todo with
      | [] => seen
      | x :: r =>
          if mem x seen then close fuel' r seen
          else close fuel' (step ZoomIn x :: step ZoomOut x :: r) (x :: seen)
      end
  end.

(** The binary64 values the zoom factor takes from 1: the steps of 0.2
    are inexact, so the way up and the way down visit different values. *)
Definition REACH : list float :=
  Eval vm_compute in close 200 [1%float] [].

(** Membership of a literal in a list of literals. *)
Ltac find_float :=
  first [ left; reflexivity | right; find_float ].

(** One case per element of [REACH]. *)
Ltac each_reach H :=
  unfold REACH in H; cbn [In] in H;
  repeat (destruct H as [<- | H]); [ .. | contradiction ].

(** The zoom factor after a sequence of clicks from the initial state. *)
Definition zoomAfter (ops : list ZoomOp) : float :=
  zoom (final (run (clicks ops) initial)).

End ZoomReach.

(** Concrete collaborators and inputs, used to run the handlers. *)
Module Examples.

Definition alice : User := mkUser "user_1".

(** Every collaborator answers; the completion service returns [text]. *)
Definition env_ok (text : string) : Env :=
  {| auth_me := Ok alice;
     ai_generateText := fun _ _ => Ok text;
     db_create := fun _ => Ok tt;
     db_delete := fun _ => Ok tt;
     db_list := fun _ => Ok [];
     storage_upload := fun f _ => Ok ("https://storage/" ++ file_name f);
     data_extractFromUrl := fun _ => Ok text;
     window_confirm := fun _ => true;
     Date_now := 1720000000000;
     Date_toISOString := "2024-07-03T09:46:40.000Z" |}.

(** The completion service is down; text extraction returns [extracted]. *)
Definition env_ai_down (extracted : string) : Env :=
  {| auth_me := Ok alice;
     ai_generateText := fun _ _ => Raise (ErrorObj "Service unavailable");
     db_create := fun _ => Ok tt;
     db_delete := fun _ => Ok tt;
     db_list := fun _ => Ok [];
     storage_upload := fun f _ => Ok ("https://storage/" ++ file_name f);
     data_extractFromUrl := fun _ => Ok extracted;
     window_confirm := fun _ => true;
     Date_now := 1720000000000;
     Date_toISOString := "2024-07-03T09:46:40.000Z" |}.

(** The completion service is down and the store rejects the record. *)
Definition env_ai_store_down : Env :=
  {| auth_me := Ok alice;
     ai_generateText := fun _ _ => Raise (ErrorObj "Service unavailable");
     db_create := fun _ => Raise (ErrorObj "Store unavailable");
     db_delete := fun _ => Ok tt;
     db_list := fun _ => Ok [];
     storage_upload := fun f _ => Ok ("https://storage/" ++ file_name f);
     data_extractFromUrl := fun _ => Ok "";
     window_confirm := fun _ => true;
     Date_now := 1720000000000;
     Date_toISOString := "2024-07-03T09:46:40.000Z" |}.

Definition rec1 : Diagram.t :=
  Diagram.mk "diagram_1" "user_1" "Water cycle" "flowchart" (Some "rain")
             "flowchart TD" None None None "2024-01-01T00:00:00.000Z".
Definition rec2 : Diagram.t :=
  Diagram.mk "mindmap_2" "user_1" "Mind map from a.pdf" "mindmap"
             (Some "Mind map generated from PDF: a.pdf")
             "mindmap" (Some "https://storage/a.pdf") None (Some "text")
             "2024-01-02T00:00:00.000Z".

Definition history : DiagramHistory.State :=
  DiagramHistory.mkState [rec2; rec1] [rec2; rec1] false "" "all" (Some rec1).

(** The rows of the dataset example: x = Jan, y = 10 and x = Feb, y = bad. *)
Definition rows : list (gmap string string) :=
  [ list_to_map [("x", "Jan"); ("y", "10")];
    list_to_map [("x", "Feb"); ("y", "bad")] ].

Definition xy : DatasetUploader.Columns := DatasetUploader.mkColumns "x" "y" "".

(** A stand-in for [JSON.stringify]: the number of points. *)
Definition stringify (l : list DatasetUploader.Point) : string :=
  JS.showN (N.of_nat (List.length l)).

Definition dataset : DatasetUploader.State :=
  DatasetUploader.mkState (Some (mkFile "sales.csv" 34)) "bar" false rows
    ["x"; "y"] xy None.

Definition pdf : File := mkFile "paper.pdf" 52000.

Definition pdfSelected : PDFProcessor.State :=
  PDFProcessor.mkState (Some pdf) false 0 "" None "".

(** More than a hundred code units of text. *)
Definition longText : string :=
  "The water cycle describes how water evaporates from the surface of the earth, rises into the atmosphere, cools and condenses into rain.".

(** A completion wrapped in a code fence, and an empty fenced block. *)
Definition fencedPie : string :=
  JS.lines [ "```mermaid"; "pie"; "```" ].
Definition emptyFence : string :=
  JS.lines [ "```mermaid"; "```" ].

Definition photosynthesis : TextPromptGenerator.State :=
  TextPromptGenerator.mkState "Explain photosynthesis" "flowchart" false None.


(** Fifty code units of text. *)
Definition fifty : string :=
  "0123456789012345678901234567890123456789012345678 ".

(** A renderer that rejects everything but the built-in fallback. *)
Definition strictMermaid : DiagramViewer.Mermaid :=
  {| DiagramViewer.initialize := Ok tt;
     DiagramViewer.render := fun _ code =>
       if String.eqb code DiagramViewer.fallbackCode then Ok "<svg>fallback</svg>"
       else Raise (ErrorObj "Parse error on line 1") |}.

(** A renderer that accepts everything. *)
Definition lenientMermaid : DiagramViewer.Mermaid :=
  {| DiagramViewer.initialize := Ok tt;
     DiagramViewer.render := fun _ _ => Ok "<svg>diagram</svg>" |}.

(** A viewer whose container is in the document. *)
Definition mounted : DiagramViewer.State :=
  DiagramViewer.mkState (Some DiagramViewer.Blank) false None 1%float.

End Examples.

(** Shapes of strings that the clean-up leaves alone. *)
Module Shape.

(** No code unit of [p] is a backtick. *)
Fixpoint noBacktick (p : string) : bool :=
  match p with
  | EmptyString => true
  | String c p' => negb (Ascii.eqb "`" c) && noBacktick p'
  end.

(** [p] is not empty and its last code unit is not white space. *)
Fixpoint endsSolid (p : string) : bool :=
  match p with
  | EmptyString => false
  | String c EmptyString => negb (JS.isWhiteSpace c)
  | String _ p' => endsSolid p'
  end.

(** [p] is not empty and its first code unit is not white space. *)
Definition startsSolid (p : string) : bool :=
  match p with
  | EmptyString => false
  | String c _ => negb (JS.isWhiteSpace c)
  end.

(** The keyword that opens the skeleton synthesised for a kind: the kind's
    own for the five kinds with a skeleton, the flowchart's for the others. *)
Definition keywordOf (diagramType : string) : string :=
  if String.eqb diagramType "flowchart" then "flowchart TD"
  else if String.eqb diagramType "mindmap" then "mindmap"
  else if String.eqb diagramType "sequence" then "sequenceDiagram"
  else if String.eqb diagramType "class" then "classDiagram"
  else if String.eqb diagramType "gantt" then "gantt"
  else "flowchart TD".

(** The keyword that the instruction of a kind asks the completion service
    to start its answer with, in the last line of the kind's template; the
    kinds without a template of their own have none. *)
Definition templateKeyword (diagramType : string) : option string :=
  if String.eqb diagramType "flowchart" then Some "flowchart TD"
  else if String.eqb diagramType "mindmap" then Some "mindmap"
  else if String.eqb diagramType "sequence" then Some "sequenceDiagram"
  else if String.eqb diagramType "class" then Some "classDiagram"
  else if String.eqb diagramType "gantt" then Some "gantt"
  else None.

(** The code-fence marker. *)
Definition FENCE : string := "```".

End Shape.

(** ** DatasetUploader: reading the uploaded file *)

Module DatasetFile.
Import DatasetUploader.

Definition setFile (f : option File) (s : State) : State :=
  mkState f (chartType s) (isProcessing s) (parsedData s) (columns s)
          (selectedColumns s) (generatedChart s).
Definition setParsedData (d : list Row) (s : State) : State :=
  mkState (file s) (chartType s) (isProcessing s) d (columns s)
          (selectedColumns s) (generatedChart s).
Definition setColumns (c : list string) (s : State) : State :=
  mkState (file s) (chartType s) (isProcessing s) (parsedData s) c
          (selectedColumns s) (generatedChart s).

(** [s.split(sep)] for a separator of one code unit. *)
Fixpoint split (sep : ascii) (s : string) : list string :=
  match s with
  | EmptyString => [ "" ]
  | String c s' =>
      if Ascii.eqb c sep then "" :: split sep s'
      else match split sep s' with
           | h :: t => String c h :: t
           | [] => [ String c "" ]
           end
  end.

(** [s.replace(re, '')] where [re] is the global pattern of one double
    quote: every double quote is removed. *)
Fixpoint removeQuotes (s : string) : string :=
  match s with
  | EmptyString => EmptyString
  | String c s' =>
      if Ascii.eqb c JS.dquote then removeQuotes s'
      else String c (removeQuotes s')
  end.

(** The callback of both [map]s: trim, then remove the double quotes. *)
Definition cleanCell (v : string) : string := removeQuotes (JS.trim v).

(** [line.split(',')] mapped through the cell callback. *)
Definition cells (line : string) : list string :=
  List.map cleanCell (split "," line).

(** [row[header] = v] on a plain object: a string assigned to [__proto__]
    goes to the setter of the prototype, which ignores it, and creates no
    property. *)
Definition setProperty (header v : string) (row : Row) : Row :=
  if String.eqb header "__proto__" then row else <[header := v]> row.

(** [headers.forEach((header, index) => row[header] = values[index] || '')],
    from position [index] on: a missing value and an empty one both give
    the empty string. *)
Fixpoint assignCells (headers : list string) (index : nat)
    (values : list string) (row : Row) : Row :=
  match headers with
  | [] => row
  | header :: rest =>
      assignCells rest (S index) values
                  (setProperty header (nth index values "") row)
  end.

(** The callback of [lines.slice(1).map]. *)
Definition parseRow (headers : list string) (line : string) : Row :=
  assignCells headers 0 (cells line) ∅.

(** [text.split('\n').filter(line => line.trim())] *)
Definition nonBlankLines (text : string) : list string :=
  List.filter (fun line => JS.truthy (JS.trim line)) (split JS.LF text).

(** What reading a property of [undefined] throws; the wording of the
    message is the engine's and is never shown. *)
Definition UNDEFINED_SPLIT : JsError :=
  ErrorObj "Cannot read properties of undefined (reading 'split')".

(** "Parse CSV data (simple implementation)": the headers and the rows;
    with no line left, [lines[0].split] throws. *)
Definition parseCSV (text : string) : res (list string * list Row) :=
  match nonBlankLines text with
  | [] => Raise UNDEFINED_SPLIT
  | first :: rest =>
      let headers := cells first in
      Ok (headers, List.map (parseRow headers) rest)
  end.

(** [uploadedFile.name.match(/\.(csv|xlsx|json)$/i)]: the three letters
    groups are ASCII, for which ignoring case is comparing lower-cased. *)
Definition hasDataExtension (name : string) : bool :=
  let lower := JS.toLowerCase name in
  JS.endsWith lower ".csv" || JS.endsWith lower ".xlsx"
  || JS.endsWith lower ".json".

(** [uploadedFile] is [event.target.files?.[0]], [content] the completion
    of [uploadedFile.text()]. *)
Definition handleFileUpload (uploadedFile : option File) (content : res string)
  : M State unit :=
  match uploadedFile with
  | None => ret tt
  | Some f =>
      if negb (hasDataExtension (file_name f)) then
        toast "Invalid file type" "Please upload a CSV, Excel, or JSON file" true
      else
        modify (setFile (Some f)) ;;
        modify (setIsProcessing true) ;;
        tryFinally
          (tryCatch
             (let* text := attempt content in
              if JS.endsWith (file_name f) ".csv" then
                let* parsed := attempt (parseCSV text) in
                let headers := fst parsed in
                let data := snd parsed in
                modify (setColumns headers) ;;
                modify (setParsedData data) ;;
                toast "File uploaded successfully"
                      ("Parsed " ++ JS.showN (N.of_nat (List.length data))
                       ++ " rows with "
                       ++ JS.showN (N.of_nat (List.length headers))
                       ++ " columns") false
              else
                toast "File format not yet supported"
                      "Currently only CSV files are supported. Excel and JSON support coming soon!"
                      true)
             (fun error =>
                toast "Failed to parse file"
                      "Please check your file format and try again" true))
          (modify (setIsProcessing false))
  end.

(** The "Generate Chart" button: shown once rows are parsed, and its
    [disabled] attribute. *)
Definition chartButtonShown (s : State) : bool :=
  (0 <? List.length (parsedData s))%nat.
Definition chartButtonDisabled (s : State) : bool :=
  isProcessing s || negb (JS.truthy (chartType s))
  || negb (JS.truthy (col_x (selectedColumns s)))
  || negb (JS.truthy (col_y (selectedColumns s))).

End DatasetFile.

(** ** TextPromptGenerator: the controls around the handler *)

Module PromptView.
Import TextPromptGenerator.

Definition EXAMPLE_PROMPTS : list string :=
  [ "Explain the process of photosynthesis";
    "Show the software development lifecycle";
    "Create a mind map for learning JavaScript";
    "Diagram the human digestive system";
    "Illustrate how machine learning works" ].

Definition setPrompt (p : string) (s : State) : State :=
  mkState p (diagramType s) (isGenerating s) (generatedDiagram s).
Definition setDiagramType (k : string) (s : State) : State :=
  mkState (prompt s) k (isGenerating s) (generatedDiagram s).

Definition handleExampleClick (example : string) : M State unit :=
  modify (setPrompt example).

(** The [disabled] attribute of the "Generate Diagram" button. *)
Definition generateDisabled (s : State) : bool :=
  isGenerating s || negb (JS.truthy (JS.trim (prompt s)))
  || negb (JS.truthy (diagramType s)).

End PromptView.

(** ** App: the authentication state and the screen *)

Module App.

(** What [onAuthStateChanged] delivers. *)
Record AuthState : Type := mkAuthState {
  auth_user : option User;
  auth_isLoading : bool;
  auth_error : option JsError
}.

Record State : Type := mkState {
  user : option User;
  loading : bool;
  error : option JsError
}.

Definition initial : State := mkState None true None.

(** The listener: the error is stored only when the state carries one. *)
Definition onAuthStateChanged (state : AuthState) (s : State) : State :=
  let s := mkState (auth_user state) (loading s) (error s) in
  let s := mkState (user s) (auth_isLoading state) (error s) in
  match auth_error state with
  | Some e => mkState (user s) (loading s) (Some e)
  | None => s
  end.

(** What [App] and [AuthGuard] render. *)
Inductive Screen : Type :=
| Loading (shown : option JsError)
| SignIn
| Main (u : User).

Definition screen (s : State) : Screen :=
  if loading s then Loading (error s)
  else match user s with
       | None => SignIn
       | Some u => Main u
       end.

(** The states delivered so far, oldest first. *)
Definition after (states : list AuthState) : State :=
  fold_left (fun s state => onAuthStateChanged state s) states initial.

(** The error of the latest state that carried one. *)
Fixpoint lastError (states : list AuthState) : option JsError :=
  match states with
  | [] => None
  | state :: rest =>
      match lastError rest with
      | Some e => Some e
      | None => auth_error state
      end
  end.

End App.

(** ** The backend test function *)

Module Backend.

Record Request : Type := mkRequest { method : string }.

(** The JSON bodies, before [JSON.stringify], by what varies in them: a
    success also carries the fixed status, message and connected flag, a
    failure the fixed status and message. *)
Inductive Body : Type :=
| Success (timestamp : string) (recordCount : nat)
| Failure (errorMessage : option string) (timestamp : string).

Record Response : Type := mkResponse {
  status : nat;
  headers : list (string * string);
  body : option Body
}.

Definition CORS_PREFLIGHT : list (string * string) :=
  [ ("Access-Control-Allow-Origin", "*");
    ("Access-Control-Allow-Methods", "POST, GET, OPTIONS");
    ("Access-Control-Allow-Headers", "Content-Type, Authorization") ].

Definition JSON_HEADERS : list (string * string) :=
  [ ("Content-Type", "application/json");
    ("Access-Control-Allow-Origin", "*") ].

(** What the awaited call can be rejected with, by what [error.message]
    does in the catch clause: on [null] and [undefined] reading the property
    throws a [TypeError]; on any other value it gives the message, [None]
    where the value has none ([JSON.stringify] then leaves the key out).  A
    message that is not a string is not modelled. *)
Inductive Rejection : Type :=
| Nullish
| Value (message : option string).

(** Completion of [blink.db.diagrams.list({ limit: 1 })]. *)
Inductive Listing : Type :=
| Listed (testQuery : list Diagram.t)
| Rejected (error : Rejection).

(** The handler given to [serve]; [listed] is the completion of the call
    to the store, awaited on the second branch only, and [now] the reading
    of the clock.  [None]: the handler itself is rejected, by the error
    thrown inside its catch clause, and returns no response. *)
Definition handler (req : Request) (listed : Listing) (now : string)
  : option Response :=
  if String.eqb (method req) "OPTIONS" then
    Some (mkResponse 200 CORS_PREFLIGHT None)
  else
    match listed with
    | Listed testQuery =>
        Some (mkResponse 200 JSON_HEADERS
                (Some (Success now (List.length testQuery))))
    | Rejected Nullish => None
    | Rejected (Value message) =>
        Some (mkResponse 500 JSON_HEADERS (Some (Failure message now)))
    end.

(** [headers.get(name)] on the headers above. *)
Fixpoint header (name : string) (hs : list (string * string)) : option string :=
  match hs with
  | [] => None
  | (k, v) :: rest => if String.eqb k name then Some v else header name rest
  end.

End Backend.

(** Writing a table as CSV text, to read it back. *)
Module CsvText.

(** [l.join(sep)] *)
Fixpoint joinWith (sep : string) (l : list string) : string :=
  match l with
  | [] => ""
  | [x] => x
  | x :: r => x ++ sep ++ joinWith sep r
  end.

(** One line per row, the cells of a row separated by commas. *)
Definition toCSV (table : list (list string)) : string :=
  joinWith JS.nl (List.map (joinWith ",") table).

(** No code unit of [s] is [a]. *)
Fixpoint freeOf (a : ascii) (s : string) : bool :=
  match s with
  | EmptyString => true
  | String c s' => negb (Ascii.eqb c a) && freeOf a s'
  end.

(** A cell that the reader takes as it is: no comma, no line feed, no
    double quote, no white space at either end. *)
Definition plain (c : string) : bool :=
  freeOf "," c && freeOf JS.LF c && freeOf JS.dquote c
  && String.eqb (JS.trim c) c.

End CsvText.

(** * Properties *)

Lemma truthy_false (s : string) : JS.truthy s = false <-> s = "".
Proof.
  unfold JS.truthy. destruct (String.eqb_spec s ""); cbn; split; congruence.
Qed.

Lemma truthy_true (s : string) : JS.truthy s = true <-> s <> "".
Proof.
  unfold JS.truthy. destruct (String.eqb_spec s ""); cbn; split; congruence.
Qed.

(** ** Zoom *)

Section Zoom.
Import DiagramViewer ZoomReach.

Lemma clicks_run (ops : list ZoomOp) (s : State) (tr : list Event) :
  clicks ops s tr =
  (Ok tt,
   mkState (container s) (isLoading s) (error s)
           (fold_left (fun z op => step op z) ops (zoom s)),
   tr).
Proof.
  revert s tr. induction ops as [|op ops IH]; intros s tr.
  - destruct s; reflexivity.
  - cbn [clicks fold_left]. unfold bind.
    destruct op; cbn; rewrite IH; reflexivity.
Qed.

Lemma zoomAfter_fold (ops : list ZoomOp) :
  zoomAfter ops = fold_left (fun z op => step op z) ops 1%float.
Proof. unfold zoomAfter, run. rewrite clicks_run. reflexivity. Qed.

Lemma zoomAfter_snoc (ops : list ZoomOp) (op : ZoomOp) :
  zoomAfter (ops ++ [op]) = step op (zoomAfter ops).
Proof. rewrite !zoomAfter_fold, fold_left_app. reflexivity. Qed.

Lemma reach_start : In 1%float REACH.
Proof. unfold REACH; cbn [In]. find_float. Qed.

Lemma reach_step (op : ZoomOp) (z : float) :
  In z REACH -> In (step op z) REACH.
Proof.
  intros H. each_reach H; destruct op; vm_compute; find_float.
Qed.

Lemma reach_inRange (z : float) : In z REACH -> inRange z = true.
Proof. intros H. each_reach H; vm_compute; reflexivity. Qed.

(** On reachable factors the clamps are the plain comparisons. *)
Lemma reach_clamp (z : float) :
  In z REACH ->
  step ZoomIn z =
    (if PrimFloat.ltb (PrimFloat.add z STEP) MAX_ZOOM
     then PrimFloat.add z STEP else MAX_ZOOM)
  /\ step ZoomOut z =
    (if PrimFloat.ltb MIN_ZOOM (PrimFloat.sub z STEP)
     then PrimFloat.sub z STEP else MIN_ZOOM).
Proof. intros H. each_reach H; vm_compute; split; reflexivity. Qed.

Lemma zoomAfter_reach (ops : list ZoomOp) : In (zoomAfter ops) REACH.
Proof.
  induction ops as [|op ops IH] using rev_ind.
  - apply reach_start.
  - rewrite zoomAfter_snoc. apply reach_step, IH.
Qed.

(** C5. From the initial factor 1.0, after any finite sequence of
    zoom-in, zoom-out and reset clicks the zoom factor lies in
    [0.5, 3.0]; a further zoom-in adds 0.2 and is clamped at 3, a further
    zoom-out subtracts 0.2 and is clamped at 0.5, and a reset gives
    exactly 1.0 (binary64 arithmetic). *)
Theorem zoom_always_clamped (ops : list ZoomOp) :
  let z := zoomAfter ops in
  result (run (clicks ops) initial) = Ok tt
  /\ inRange z = true
  /\ zoomAfter (ops ++ [ZoomIn]) =
       (if PrimFloat.ltb (PrimFloat.add z STEP) MAX_ZOOM
        then PrimFloat.add z STEP else MAX_ZOOM)
  /\ zoomAfter (ops ++ [ZoomOut]) =
       (if PrimFloat.ltb MIN_ZOOM (PrimFloat.sub z STEP)
        then PrimFloat.sub z STEP else MIN_ZOOM)
  /\ zoomAfter (ops ++ [ResetZoom]) = 1%float
  /\ zoomAfter [] = 1%float.
Proof.
  intros z. pose proof (zoomAfter_reach ops) as Hr. fold z in Hr.
  destruct (reach_clamp z Hr) as [Hin Hout].
  rewrite !zoomAfter_snoc. fold z.
  repeat split.
  - unfold run, result. rewrite clicks_run. reflexivity.
  - apply reach_inRange, Hr.
  - exact Hin.
  - exact Hout.
Qed.

Example zoom_three_in :
  zoomAfter [ZoomIn; ZoomIn; ZoomIn] = 0x1.9999999999999p+0%float.
Proof. reflexivity. Qed.

Example zoom_saturates :
  zoomAfter (repeat ZoomIn 12) = 3%float
  /\ zoomAfter (repeat ZoomOut 5) = 0.5%float.
Proof. split; reflexivity. Qed.

End Zoom.

(** ** History view: filtering and deletion *)

Section History.
Import DiagramHistory.

Lemma filter_swap {A} (f g : A -> bool) (l : list A) :
  List.filter f (List.filter g l) = List.filter g (List.filter f l).
Proof.
  induction l as [|a l IH]; [reflexivity|].
  cbn [List.filter].
  destruct (g a) eqn:Hg, (f a) eqn:Hf; cbn [List.filter];
    rewrite ?Hg, ?Hf, IH; reflexivity.
Qed.

Lemma filterByTerm_incl (T : string) (l : list Diagram.t) (d : Diagram.t) :
  In d (filterByTerm T l) -> In d l.
Proof.
  unfold filterByTerm. destruct (JS.truthy T); [|tauto].
  intros H. apply filter_In in H. tauto.
Qed.

Lemma filterByType_incl (K : string) (l : list Diagram.t) (d : Diagram.t) :
  In d (filterByType K l) -> In d l.
Proof.
  unfold filterByType. destruct (negb (String.eqb K "all")); [|tauto].
  intros H. apply filter_In in H. tauto.
Qed.

(** C6. Filtering by term then by kind gives the same list as filtering
    by kind then by term; [filterDiagrams] computes that list from the
    loaded set, the search term and the kind selector alone, leaves the
    loaded set (and every other field) as it was, calls no collaborator,
    and its result is a subset of the loaded set. *)
Theorem filter_commutes_and_is_pure
    (T K : string) (l : list Diagram.t) (st : State) :
  filterByType K (filterByTerm T l) = filterByTerm T (filterByType K l)
  /\ (let o := run filterDiagrams st in
      result o = Ok tt
      /\ filteredDiagrams (final o) =
           filterByType (filterType st) (filterByTerm (searchTerm st) (diagrams st))
      /\ diagrams (final o) = diagrams st
      /\ final o = setFilteredDiagrams (filteredDiagrams (final o)) st
      /\ trace o = []
      /\ forall d, In d (filteredDiagrams (final o)) -> In d (diagrams st)).
Proof.
  split.
  - unfold filterByType, filterByTerm.
    destruct (negb (String.eqb K "all")), (JS.truthy T); try reflexivity.
    apply filter_swap.
  - run_handler. repeat split.
    intros d H. apply filterByType_incl, filterByTerm_incl in H. exact H.
Qed.

Example filter_example :
  let a := Diagram.mk "1" "u" "Water Cycle" "flowchart" (Some "rain") "c" None None None "t1" in
  let b := Diagram.mk "2" "u" "Plan" "gantt" (Some "WATER supply") "c" None None None "t2" in
  let c := Diagram.mk "3" "u" "Other" "flowchart" None "c" None None None "t3" in
  filterByType "flowchart" (filterByTerm "water" [a; b; c]) = [a]
  /\ filterByTerm "water" [a; b; c] = [a; b]
  /\ filterByType "all" [a; b; c] = [a; b; c].
Proof. repeat split; reflexivity. Qed.






End History.

Section HistoryWitness.
Import DiagramHistory Examples.


End HistoryWitness.

(** ** Validation in the prompt flow *)

Section PromptValidation.
Import TextPromptGenerator.

(** C8. In the prompt flow, a request whose prompt is empty or only white
    space, or whose diagram kind is absent, is refused with a destructive
    toast: no collaborator (auth, completion service, store) is called, no
    record is created or persisted, and the state is unchanged. *)
Theorem validation_refuses_before_any_call (env : Env) (st : State) :
  JS.trim (prompt st) = "" \/ diagramType st = "" ->
  let o := run (handleGenerate env) st in
  result o = Ok tt
  /\ final o = st
  /\ (exists t, trace o = [ShowToast t] /\ toast_destructive t = true
                /\ (JS.trim (prompt st) = "" ->
                    toast_title t = "Please enter a prompt")
                /\ (JS.trim (prompt st) <> "" ->
                    toast_title t = "Please select a diagram type"))
  /\ noExternalCall (trace o)
  /\ created (trace o) = []
  /\ generatedDiagram (final o) = generatedDiagram st.
Proof.
  intros H o. subst o. unfold handleGenerate, noExternalCall. run_handler.
  destruct (JS.truthy (JS.trim (prompt st))) eqn:E; cbn.
  - apply truthy_true in E.
    destruct H as [H|H]; [contradiction|].
    rewrite H. cbn.
    repeat split. eexists. split; [reflexivity|]. cbn.
    split; [reflexivity|]. split; intros; [congruence|reflexivity].
  - apply truthy_false in E.
    repeat split. eexists. split; [reflexivity|]. cbn.
    split; [reflexivity|]. split; intros; [reflexivity|congruence].
Qed.

Lemma validation_refuses_before_any_call_witness :
  JS.trim (prompt (mkState "  " "flowchart" false None)) = ""
  /\ trace (run (handleGenerate (Examples.env_ok "flowchart TD"))
                (mkState "  " "flowchart" false None))
     = [ShowToast (mkToast "Please enter a prompt"
                     "Describe what you'd like to visualize" true)].
Proof.
  split; [reflexivity|].
  pose proof (validation_refuses_before_any_call
                (Examples.env_ok "flowchart TD")
                (mkState "  " "flowchart" false None)
                (or_introl eq_refl)) as H.
  cbv zeta in H. destruct H as (_ & _ & (t & Ht & _) & _).
  rewrite Ht. f_equal. injection Ht as <-. reflexivity.
Defined.

Example validation_no_kind :
  toasts (trace (run (handleGenerate (Examples.env_ok "x"))
                     (mkState "Explain photosynthesis" "" false None)))
  = [mkToast "Please select a diagram type"
       "Choose the type of diagram you want to create" true].
Proof. reflexivity. Qed.

End PromptValidation.

(** ** The document flow *)

Section Document.
Import PDFProcessor.

Lemma endsWith_pdf_examples :
  JS.endsWith (JS.toLowerCase "Report.PDF") ".pdf" = true
  /\ JS.endsWith (JS.toLowerCase "notes.txt") ".pdf" = false
  /\ JS.endsWith (JS.toLowerCase "pdf") ".pdf" = false.
Proof. repeat split; reflexivity. Qed.

(** C10. A selected file whose lower-cased name does not end in ".pdf", or
    whose size exceeds 10485760 bytes, is rejected with a destructive
    toast; no collaborator is called, and the selected file, the extracted
    text and the generated mind map (the whole state) stay as they were. *)
Theorem file_selection_rejected (f : File) (st : State) :
  JS.endsWith (JS.toLowerCase (file_name f)) ".pdf" = false
  \/ (10485760 < file_size f)%N ->
  let o := run (handleFileUpload (Some f)) st in
  result o = Ok tt
  /\ final o = st
  /\ file (final o) = file st
  /\ generatedMindMap (final o) = generatedMindMap st
  /\ (exists t, trace o = [ShowToast t] /\ toast_destructive t = true
                /\ (toast_title t = "Invalid file type"
                    \/ toast_title t = "File too large"))
  /\ noExternalCall (trace o)
  /\ MAX_SIZE = 10485760%N.
Proof.
  intros H o. subst o. unfold handleFileUpload, noExternalCall.
  destruct (JS.endsWith (JS.toLowerCase (file_name f)) ".pdf") eqn:E; cbn.
  - destruct H as [H|H]; [discriminate|].
    assert (Hlt : (MAX_SIZE <? file_size f)%N = true)
      by (apply N.ltb_lt; exact H).
    rewrite Hlt. run_handler. repeat split.
    eexists. repeat split. right. reflexivity.
  - run_handler. repeat split. eexists. repeat split. left. reflexivity.
Qed.

Lemma file_selection_rejected_witness :
  (10485760 < file_size (mkFile "big.pdf" 10485761))%N
  /\ final (run (handleFileUpload (Some (mkFile "big.pdf" 10485761)))
                Examples.pdfSelected) = Examples.pdfSelected.
Proof.
  split; [reflexivity|].
  apply (file_selection_rejected (mkFile "big.pdf" 10485761)
           Examples.pdfSelected (or_intror eq_refl)).
Defined.

(** A file at the limit with a PDF name is accepted: it becomes the
    selection and the previous results are reset. *)
Example file_selection_accepted :
  final (run (handleFileUpload (Some (mkFile "Paper.PDF" 10485760)))
             (mkState (Some Examples.pdf) false 70 "old text"
                      (Some Examples.rec2) "step"))
  = mkState (Some (mkFile "Paper.PDF" 10485760)) false 0 "" None "step".
Proof. reflexivity. Qed.

(** C9. In the document flow, when the extracted text has a trimmed length
    below 100, the flow stops with the error "Could not extract sufficient
    text from PDF", shown in a destructive toast, before the completion
    service is called, and nothing is persisted; with a trimmed length of
    100 or more the completion service is called with the instruction built
    from the text. *)
Theorem insufficient_text_rejected
    (env : Env) (st : State) (f : File) (user : User) (url text : string) :
  file st = Some f ->
  auth_me env = Ok user ->
  storage_upload env f ("pdfs/" ++ file_name f) = Ok url ->
  data_extractFromUrl env url = Ok text ->
  let o := run (handleProcessPDF env) st in
  ((String.length (JS.trim text) < 100)%nat ->
   result o = Ok tt
   /\ trace o = [ AuthMe; StorageUpload f ("pdfs/" ++ file_name f);
                  ExtractFromUrl url;
                  ShowToast (mkToast "PDF processing failed"
                               INSUFFICIENT_TEXT true) ]
   /\ existsb isGenerateText (trace o) = false
   /\ created (trace o) = []
   /\ final o = rejectedState st text)
  /\ ((100 <= String.length (JS.trim text))%nat ->
      In (GenerateText (mindMapPrompt text) "gpt-4o-mini") (trace o)).
Proof.
  intros Hf Ha Hu He o. subst o. unfold handleProcessPDF. run_handler.
  rewrite Hf. run_handler. rewrite Ha. run_handler. rewrite Hu. run_handler.
  rewrite He. run_handler.
  split; intros Hlen.
  - assert (Hb : (String.length (JS.trim text) <? 100)%nat = true)
      by (apply Nat.ltb_lt; exact Hlen).
    rewrite Hb, orb_true_r. run_handler. repeat split.
  - assert (Hb : (String.length (JS.trim text) <? 100)%nat = false)
      by (apply Nat.ltb_ge; exact Hlen).
    assert (Ht : JS.truthy text = true).
    { destruct text; [cbn in Hlen; lia | reflexivity]. }
    rewrite Hb, Ht. cbv beta iota delta [negb orb]. run_handler.
    destruct (ai_generateText env (mindMapPrompt text) "gpt-4o-mini");
      run_handler.
    + destruct (db_create env _); run_handler; cbn [In]; tauto.
    + cbn [In]; tauto.
Qed.

Lemma insufficient_text_rejected_witness :
  (String.length (JS.trim Examples.fifty) < 100)%nat
  /\ toasts (trace (run (handleProcessPDF (Examples.env_ok Examples.fifty))
                        Examples.pdfSelected))
     = [mkToast "PDF processing failed"
          "Could not extract sufficient text from PDF" true].
Proof.
  assert (Hlen : (String.length (JS.trim Examples.fifty) < 100)%nat)
    by (apply Nat.ltb_lt; vm_compute; reflexivity).
  split; [exact Hlen|].
  pose proof (insufficient_text_rejected (Examples.env_ok Examples.fifty)
                Examples.pdfSelected Examples.pdf Examples.alice
                "https://storage/paper.pdf" Examples.fifty
                eq_refl eq_refl eq_refl eq_refl) as H.
  cbv zeta in H. destruct H as [H _].
  destruct (H Hlen) as (_ & Htr & _). rewrite Htr. reflexivity.
Defined.

End Document.

(** ** The rendering adapter *)

Section Rendering.
Import DiagramViewer.

(** While the loading flag is set the element with the ref is out of the
    document, so nothing can be installed. *)
Lemma rerender_loading (s : State) :
  isLoading s = true ->
  rerender s = mkState None true (error s) (zoom s).
Proof.
  intros H. unfold rerender. rewrite H. reflexivity.
Qed.

Lemma install_detached (v : View) (s : State) :
  container s = None -> install v s = s.
Proof. intros H. unfold install. rewrite H. reflexivity. Qed.

(** The state after the attempt, by what the renderer did: every state
    update made before an [await] is rendered before the function goes on,
    and the element is detached from then on. *)
Lemma renderDiagram_run
    (m : Mermaid) (now1 now2 : N) (code : string) (z : float) (st : State) :
  run (renderDiagram m now1 now2 code z) st =
  (Ok tt,
   mkState None false
     match initialize m, render m ("diagram-" ++ JS.showN now1) code with
     | Ok _, Ok _ => None
     | Ok _, Raise err | Raise err, _ =>
         Some ("Failed to render diagram: " ++ errorMessage err)
     end
     (DiagramViewer.zoom st),
   []).
Proof.
  unfold renderDiagram, await. run_handler.
  destruct st as [[v|] l e zz];
    destruct (initialize m) as [[]|e0]; run_handler;
    destruct (render m ("diagram-" ++ JS.showN now1) code) as [svg|e1];
    run_handler; try reflexivity;
    destruct (render m ("fallback-" ++ JS.showN now2) fallbackCode);
    reflexivity.
Qed.

(** Mounted or not, the attempt returns, clears the loading flag and calls
    no collaborator. *)
Lemma renderDiagram_returns
    (m : Mermaid) (now1 now2 : N) (code : string) (z : float) (st : State) :
  let o := run (renderDiagram m now1 now2 code z) st in
  result o = Ok tt /\ isLoading (final o) = false /\ trace o = [].
Proof.
  intros o. subst o. rewrite renderDiagram_run. repeat split.
Qed.

(** A viewer that has not left its first state ignores every description. *)
Lemma passes_initial (m : Mermaid) (props : list (string * N * N)) :
  run (passes m props) initial = (Ok tt, initial, []).
Proof.
  induction props as [|[[code now1] now2] props IH]; [reflexivity|].
  cbn [passes]. unfold run in *. unfold pass, effect.
  run_handler. cbn [container initial]. run_handler. exact IH.
Qed.

(** The effect starts no attempt without a description or a container. *)
Lemma effect_guard (m : Mermaid) (now1 now2 : N) (code : string) (st : State) :
  code = "" \/ container st = None ->
  run (effect m now1 now2 code) st = (Ok tt, st, []).
Proof.
  intros H. unfold effect. run_handler.
  destruct (container st); [|reflexivity].
  destruct H as [->|H]; [reflexivity|discriminate].
Qed.

(** C4.  The viewer reaches none of the three states of the claim.  It
    starts with the loading flag set, so its first output is the loading
    card, the element with the ref is not in the document, and the effect
    returns at its guard for every description it is handed: the viewer
    stays on the loading card and no attempt starts.  And an attempt
    started from any state returns without raising, but installs nothing,
    because the element is detached while the loading flag or an error is
    set: when the renderer accepts the description the viewer is left with
    an empty container, and when it does not, with the error card of the
    component, whether or not the built-in fallback could be rendered. *)
Theorem render_attempt_shows_no_diagram
    (m : Mermaid) (props : list (string * N * N))
    (now1 now2 : N) (code : string) (z : float) (st : State) :
  (let o := run (passes m props) initial in
   result o = Ok tt
   /\ final o = initial
   /\ screen code (final o) = LoadingCard)
  /\ (let o := run (renderDiagram m now1 now2 code z ;; modify rerender) st in
      result o = Ok tt
      /\ screen code (final o)
         = match initialize m, render m ("diagram-" ++ JS.showN now1) code with
           | Ok _, Ok _ => Canvas (Some Blank)
           | Ok _, Raise err | Raise err, _ =>
               ErrorCard ("Failed to render diagram: " ++ errorMessage err) code
           end).
Proof.
  split.
  - rewrite passes_initial. repeat split.
  - pose proof (renderDiagram_run m now1 now2 code z st) as R.
    unfold run in *. run_handler. rewrite R. cbn [result final fst snd].
    destruct (initialize m) as [[]|e0];
      destruct (render m ("diagram-" ++ JS.showN now1) code) as [svg|e1];
      split; reflexivity.
Qed.

(** A malformed description handed to a new viewer whose renderer rejects
    it and accepts the fallback: the loading card stays. *)
Example viewer_malformed :
  let o := run (passes Examples.strictMermaid [("flowchart TD; A--", 1%N, 2%N)])
               initial in
  final o = initial /\ screen "flowchart TD; A--" (final o) = LoadingCard.
Proof. split; reflexivity. Qed.

(** The same description and a well-formed one, were the container in the
    document when the effect runs. *)
Example attempt_malformed :
  let o := run (pass Examples.strictMermaid 1 2 "flowchart TD; A--")
               Examples.mounted in
  screen "flowchart TD; A--" (final o)
  = ErrorCard "Failed to render diagram: Parse error on line 1"
              "flowchart TD; A--".
Proof. reflexivity. Qed.

Example attempt_well_formed :
  final (run (pass Examples.lenientMermaid 1 2 "flowchart TD; A-->B")
             Examples.mounted)
  = mkState (Some Blank) false None 1%float.
Proof. reflexivity. Qed.

End Rendering.

(** ** The dataset reduction *)

Section Dataset.
Import DatasetUploader.

Lemma parseFloat_examples :
  Num.parseFloat "10" = Num.Dec false 10 0
  /\ Num.parseFloat "bad" = Num.NaN
  /\ Num.parseFloat " -3.25e2x" = Num.Dec true 325 0
  /\ Num.parseFloat ".5" = Num.Dec false 5 (-1)
  /\ Num.parseFloat "" = Num.NaN
  /\ Num.parseFloat "-Infinity" = Num.Infinity true
  /\ Num.parseFloat "12px" = Num.Dec false 12 0.
Proof. repeat split; reflexivity. Qed.

Lemma or_zero_not_NaN (n : Num.t) : Num.isNaN (Num.or n Num.zero) = false.
Proof.
  destruct n as [| |neg m e]; try reflexivity.
  unfold Num.or, Num.truthy. destruct (N.eqb m 0); reflexivity.
Qed.

(** The filter of [chartData] keeps every element: the default [|| 0] has
    already replaced each [NaN]. *)
Lemma chartData_map (sel : Columns) (rows : list (gmap string string)) :
  chartData sel rows = List.map (toPoint sel) rows.
Proof.
  unfold chartData. induction rows as [|r rows IH]; [reflexivity|].
  cbn [List.map List.filter].
  unfold toPoint at 1. cbn [y]. rewrite or_zero_not_NaN. cbn [negb].
  rewrite IH. reflexivity.
Qed.

Lemma chartData_drops_nothing (sel : Columns) (rows : list (gmap string string)) :
  List.length (chartData sel rows) = List.length rows.
Proof. rewrite chartData_map. apply length_map. Qed.

(** C3. On the rows x = Jan, y = 10 and x = Feb, y = bad with column y
    selected, the reduction keeps both rows: the second one, whose y does
    not parse, comes out with y = 0 instead of being dropped. *)
Theorem chartData_keeps_unparsed_row :
  chartData Examples.xy Examples.rows =
  [ mkPoint (Some "Jan") (Num.Dec false 10 0) (Some "Jan");
    mkPoint (Some "Feb") Num.zero (Some "Feb") ]
  /\ chartData Examples.xy Examples.rows <>
     [ mkPoint (Some "Jan") (Num.Dec false 10 0) (Some "Jan") ].
Proof.
  assert (E : chartData Examples.xy Examples.rows =
              [ mkPoint (Some "Jan") (Num.Dec false 10 0) (Some "Jan");
                mkPoint (Some "Feb") Num.zero (Some "Feb") ])
    by (vm_compute; reflexivity).
  split; [exact E|]. rewrite E. discriminate.
Qed.

End Dataset.

(** ** The clean-up of a description *)

Section CleanUp.
Import Shape.

Lemma append_cons (c : ascii) (p r : string) :
  String c p ++ r = String c (p ++ r).
Proof. reflexivity. Qed.

Lemma append_nil (r : string) : "" ++ r = r.
Proof. reflexivity. Qed.

Lemma string_length_app (p r : string) :
  String.length (p ++ r) = (String.length p + String.length r)%nat.
Proof.
  induction p as [|c p IH]; [reflexivity|].
  rewrite append_cons. cbn [String.length Nat.add]. rewrite IH. reflexivity.
Qed.

Lemma dropPrefix_length (lit s r : string) :
  JS.dropPrefix lit s = Some r ->
  String.length s = (String.length lit + String.length r)%nat.
Proof.
  revert s. induction lit as [|a lit IH]; intros s H; cbn in H.
  - injection H as ->. reflexivity.
  - destruct s as [|b s]; [discriminate|].
    destruct (Ascii.eqb a b); [|discriminate].
    cbn. rewrite (IH _ H). reflexivity.
Qed.

Lemma dropNewline_length (s : string) :
  (String.length (JS.dropNewline s) <= String.length s)%nat.
Proof.
  destruct s as [|c s]; cbn; [lia|]. destruct (Ascii.eqb c JS.LF); cbn; lia.
Qed.

(** A code unit that does not start the literal is kept. *)
Lemma removeAll_head (a c : ascii) (lit s : string) (fuel : nat) :
  Ascii.eqb a c = false ->
  JS.removeAll (S fuel) (String a lit) (String c s)
  = String c (JS.removeAll fuel (String a lit) s).
Proof. intros H. cbn. rewrite H. reflexivity. Qed.

Lemma removeAll_empty (lit : string) (fuel : nat) :
  JS.removeAll fuel lit "" = "".
Proof. destruct fuel; reflexivity. Qed.

(** Where no match starts, the output does not start with the fence. *)
Lemma removeAll_fence_head (c : ascii) (s : string) (fuel : nat) :
  JS.dropPrefix FENCE (String c s) = None ->
  (String.length s < fuel)%nat ->
  JS.startsWith (String c (JS.removeAll fuel FENCE s)) FENCE = false.
Proof.
  unfold FENCE, JS.startsWith. cbn [JS.dropPrefix].
  destruct (Ascii.eqb "`" c) eqn:E1; [|reflexivity].
  intros D Hlen.
  destruct s as [|c2 s].
  { rewrite removeAll_empty. reflexivity. }
  destruct fuel as [|fuel]; [cbn in Hlen; lia|].
  cbn [String.length] in Hlen.
  destruct (Ascii.eqb "`" c2) eqn:E2.
  2:{ rewrite removeAll_head by exact E2. rewrite E2. reflexivity. }
  destruct s as [|c3 s].
  { cbn [JS.removeAll JS.dropPrefix]. rewrite E2. rewrite removeAll_empty.
    cbn [JS.dropPrefix]. rewrite E2. reflexivity. }
  destruct (Ascii.eqb "`" c3) eqn:E3; [discriminate D|].
  destruct fuel as [|fuel]; [cbn in Hlen; lia|].
  cbn [JS.removeAll JS.dropPrefix]. rewrite E2, E3.
  cbn [JS.dropPrefix]. rewrite E2, E3. reflexivity.
Qed.

(** The second replacement leaves no fence marker behind. *)
Lemma removeAll_no_fence (fuel : nat) (s : string) :
  (String.length s < fuel)%nat ->
  JS.includes (JS.removeAll fuel FENCE s) FENCE = false.
Proof.
  revert s. induction fuel as [|fuel IH]; intros s Hlen; [lia|].
  destruct s as [|c s]; [reflexivity|].
  cbn [JS.removeAll].
  destruct (JS.dropPrefix FENCE (String c s)) as [r|] eqn:D.
  - apply IH. apply dropPrefix_length in D.
    pose proof (dropNewline_length r). cbn in D, Hlen. lia.
  - cbn [JS.includes].
    rewrite removeAll_fence_head by (cbn in Hlen; first [exact D | lia]).
    apply IH. cbn in Hlen. lia.
Qed.

Lemma replaceGlobal_no_fence (s : string) :
  JS.includes (JS.replaceGlobal FENCE s) FENCE = false.
Proof. apply removeAll_no_fence. lia. Qed.

Lemma includes_trimStart (s p : string) :
  JS.includes s p = false -> JS.includes (JS.trimStart s) p = false.
Proof.
  induction s as [|c s IH]; [tauto|].
  intros H. cbn [JS.trimStart].
  destruct (JS.isWhiteSpace c); [|exact H].
  apply IH. cbn [JS.includes] in H.
  destruct (JS.startsWith (String c s) p); [discriminate|exact H].
Qed.

Lemma startsWith_empty (p : string) :
  JS.startsWith "" p = true -> p = "".
Proof. destruct p; [reflexivity|discriminate]. Qed.

Lemma startsWith_nil (s : string) : JS.startsWith s "" = true.
Proof. destruct s; reflexivity. Qed.

Lemma startsWith_cons (c a : ascii) (s p : string) :
  JS.startsWith (String c s) (String a p)
  = (Ascii.eqb a c && JS.startsWith s p)%bool.
Proof. unfold JS.startsWith. cbn. destruct (Ascii.eqb a c); reflexivity. Qed.

(** [trimEnd s] is a prefix of [s]. *)
Lemma startsWith_trimEnd (s p : string) :
  JS.startsWith (JS.trimEnd s) p = true -> JS.startsWith s p = true.
Proof.
  revert p. induction s as [|c s IH]; intros p H; [exact H|].
  destruct p as [|a p]; [apply startsWith_nil|].
  cbn [JS.trimEnd] in H. rewrite startsWith_cons.
  destruct (JS.trimEnd s) as [|c' t] eqn:T.
  - destruct (JS.isWhiteSpace c); [discriminate H|].
    rewrite startsWith_cons in H. apply andb_prop in H as [Ha Hp].
    apply startsWith_empty in Hp. subst p.
    rewrite Ha, startsWith_nil. reflexivity.
  - rewrite startsWith_cons in H. apply andb_prop in H as [Ha Hp].
    rewrite Ha, (IH _ Hp). reflexivity.
Qed.

Lemma includes_trimEnd (s p : string) :
  JS.includes s p = false -> JS.includes (JS.trimEnd s) p = false.
Proof.
  induction s as [|c s IH]; [tauto|].
  intros H. cbn [JS.includes] in H.
  destruct (JS.startsWith (String c s) p) eqn:Hs; [discriminate|].
  assert (Hs' : JS.startsWith (JS.trimEnd (String c s)) p = false).
  { destruct (JS.startsWith (JS.trimEnd (String c s)) p) eqn:E; [|reflexivity].
    apply startsWith_trimEnd in E. congruence. }
  specialize (IH H).
  cbn [JS.trimEnd] in *.
  destruct (JS.trimEnd s) as [|c' t] eqn:T.
  - destruct (JS.isWhiteSpace c).
    + exact IH.
    + cbn [JS.includes]. rewrite Hs'. exact IH.
  - cbn [JS.includes]. rewrite Hs'. exact IH.
Qed.

(** Whatever the description, the cleaned one holds no fence marker. *)
Lemma cleanUp_no_fence (code : string) :
  JS.includes (TextPromptGenerator.cleanUp code) FENCE = false.
Proof.
  unfold TextPromptGenerator.cleanUp, JS.trim.
  apply includes_trimEnd, includes_trimStart, replaceGlobal_no_fence.
Qed.

End CleanUp.

(** ** Fallback synthesis in the prompt flow *)

Section Fallback.
Import Shape TextPromptGenerator.

Lemma noBacktick_head (c : ascii) (p : string) :
  noBacktick (String c p) = true ->
  Ascii.eqb "`" c = false /\ noBacktick p = true.
Proof.
  cbn [noBacktick]. intros H. apply andb_prop in H as [H1 H2].
  split; [|exact H2]. destruct (Ascii.eqb "`" c); [discriminate|reflexivity].
Qed.

(** A stretch without backticks goes through a fence replacement. *)
Lemma removeAll_keep (lit p r : string) (fuel : nat) :
  noBacktick p = true ->
  JS.removeAll (String.length p + fuel) (String "`" lit) (p ++ r)
  = p ++ JS.removeAll fuel (String "`" lit) r.
Proof.
  induction p as [|c p IH]; intros H; [reflexivity|].
  apply noBacktick_head in H as [Hc Hp].
  rewrite append_cons. cbn [String.length Nat.add].
  rewrite removeAll_head by exact Hc.
  rewrite IH by exact Hp. reflexivity.
Qed.

Lemma replaceGlobal_keep (lit p r : string) :
  noBacktick p = true ->
  JS.replaceGlobal (String "`" lit) (p ++ r)
  = p ++ JS.replaceGlobal (String "`" lit) r.
Proof.
  intros H. unfold JS.replaceGlobal.
  rewrite string_length_app, plus_n_Sm. apply removeAll_keep, H.
Qed.

Lemma trimStart_keep (p r : string) :
  startsSolid p = true -> JS.trimStart (p ++ r) = p ++ r.
Proof.
  destruct p as [|c p]; [discriminate|]. cbn [startsSolid]. intros H.
  rewrite append_cons. cbn [JS.trimStart].
  destruct (JS.isWhiteSpace c); [discriminate|reflexivity].
Qed.

Lemma trimEnd_keep (p r : string) :
  endsSolid p = true -> JS.trimEnd (p ++ r) = p ++ JS.trimEnd r.
Proof.
  induction p as [|c p IH]; [discriminate|]. intros H.
  rewrite !append_cons. cbn [JS.trimEnd].
  destruct p as [|c' p].
  - rewrite !append_nil. cbn [endsSolid] in H.
    destruct (JS.trimEnd r); [|reflexivity].
    destruct (JS.isWhiteSpace c); [discriminate|reflexivity].
  - rewrite IH by exact H. rewrite append_cons. reflexivity.
Qed.

(** The clean-up keeps a leading stretch that has no backtick and neither
    starts nor ends with white space. *)
Lemma cleanUp_keep (p r : string) :
  noBacktick p = true -> startsSolid p = true -> endsSolid p = true ->
  cleanUp (p ++ r)
  = p ++ JS.trimEnd (JS.replaceGlobal "```" (JS.replaceGlobal "```mermaid" r)).
Proof.
  intros Hb Hs He. unfold cleanUp, JS.trim.
  rewrite !replaceGlobal_keep by exact Hb.
  rewrite trimStart_keep by exact Hs.
  apply trimEnd_keep, He.
Qed.

Lemma startsWith_split (s p : string) :
  JS.startsWith s p = true -> exists r, s = p ++ r.
Proof.
  revert s. induction p as [|a p IH]; intros s H.
  - exists s. reflexivity.
  - destruct s as [|c s]; [discriminate|].
    rewrite startsWith_cons in H. apply andb_prop in H as [Ha Hp].
    apply Ascii.eqb_eq in Ha. subst c.
    destruct (IH _ Hp) as [r ->]. exists r. reflexivity.
Qed.

Lemma startsWith_app (p r : string) : JS.startsWith (p ++ r) p = true.
Proof.
  induction p as [|a p IH]; [apply startsWith_nil|].
  rewrite append_cons, startsWith_cons, Ascii.eqb_refl. exact IH.
Qed.

Lemma keywordOf_solid (k : string) :
  noBacktick (keywordOf k) = true
  /\ startsSolid (keywordOf k) = true
  /\ endsSolid (keywordOf k) = true.
Proof.
  unfold keywordOf.
  repeat match goal with
         | |- context [String.eqb k ?x] => destruct (String.eqb k x)
         end; repeat split; reflexivity.
Qed.

(** A kind without a skeleton of its own gets the generic flowchart. *)
Lemma fallbackDiagrams_other (prompt k : string) :
  k <> "flowchart" -> k <> "mindmap" -> k <> "sequence" -> k <> "class" ->
  k <> "gantt" ->
  fallbackDiagrams prompt !! k = None.
Proof.
  intros H1 H2 H3 H4 H5. unfold fallbackDiagrams.
  apply not_elem_of_list_to_map_1. cbn [fmap list_fmap fst].
  rewrite !elem_of_cons, elem_of_nil. tauto.
Qed.

(** The kinds of the fixed enumeration (those the prompt view offers and
    the chart kinds) all pass the validation of the kind. *)
Lemma enumeration_kinds_present (k : string) :
  In k (DIAGRAM_TYPES ++ DatasetUploader.CHART_TYPES)%list -> k <> "".
Proof.
  cbn [DIAGRAM_TYPES DatasetUploader.CHART_TYPES app In].
  intros H. repeat (destruct H as [<-|H]; [discriminate|]). contradiction.
Qed.

(** Every synthesised skeleton opens with the keyword of its kind. *)
Lemma fallbackCode_keyword (prompt k : string) :
  JS.startsWith (fallbackCode prompt k) (keywordOf k) = true.
Proof.
  unfold fallbackCode, keywordOf.
  destruct (String.eqb_spec k "flowchart") as [->|N1]; [reflexivity|].
  destruct (String.eqb_spec k "mindmap") as [->|N2]; [reflexivity|].
  destruct (String.eqb_spec k "sequence") as [->|N3]; [reflexivity|].
  destruct (String.eqb_spec k "class") as [->|N4]; [reflexivity|].
  destruct (String.eqb_spec k "gantt") as [->|N5]; [reflexivity|].
  rewrite fallbackDiagrams_other by assumption. reflexivity.
Qed.

(** The cleaned skeleton still opens with the keyword, so it is not empty,
    and it holds no fence marker. *)
Lemma cleanUp_fallback (prompt k : string) :
  JS.startsWith (cleanUp (fallbackCode prompt k)) (keywordOf k) = true
  /\ cleanUp (fallbackCode prompt k) <> ""
  /\ JS.includes (cleanUp (fallbackCode prompt k)) FENCE = false.
Proof.
  destruct (startsWith_split _ _ (fallbackCode_keyword prompt k)) as [r Hr].
  destruct (keywordOf_solid k) as (Hb & Hs & He).
  rewrite Hr at 1 2. rewrite cleanUp_keep by assumption.
  split; [apply startsWith_app|]. split; [|apply cleanUp_no_fence].
  destruct (keywordOf k); [discriminate Hs|discriminate].
Qed.

End Fallback.

(** ** The prompt flow end to end *)

Section PromptFlow.
Import Shape TextPromptGenerator.

(** The description before clean-up: the trimmed completion, or the
    skeleton when the completion call raised. *)
Lemma generateCode_run (env : Env) (p k : string) (s : State) (tr : list Event) :
  generateCode env p k s tr =
  (Ok match ai_generateText env (promptToUse p k) "gpt-4o-mini" with
      | Ok text => JS.trim text
      | Raise _ => fallbackCode p k
      end,
   s, (tr ++ [GenerateText (promptToUse p k) "gpt-4o-mini"])%list).
Proof.
  unfold generateCode. run_handler.
  destruct (ai_generateText env (promptToUse p k) "gpt-4o-mini"); reflexivity.
Qed.

(** A valid request whose auth and store calls succeed. *)
Lemma handleGenerate_run (env : Env) (st : State) (user : User) (raw : string) :
  JS.trim (prompt st) <> "" ->
  diagramType st <> "" ->
  auth_me env = Ok user ->
  raw = match ai_generateText env (promptToUse (prompt st) (diagramType st))
                "gpt-4o-mini" with
        | Ok text => JS.trim text
        | Raise _ => fallbackCode (prompt st) (diagramType st)
        end ->
  db_create env (diagramData env user (prompt st) (diagramType st) (cleanUp raw))
  = Ok tt ->
  run (handleGenerate env) st =
  (Ok tt,
   mkState (prompt st) (diagramType st) false
     (Some (diagramData env user (prompt st) (diagramType st) (cleanUp raw))),
   [ AuthMe;
     GenerateText (promptToUse (prompt st) (diagramType st)) "gpt-4o-mini";
     DbCreate (diagramData env user (prompt st) (diagramType st) (cleanUp raw));
     ShowToast (mkToast "Diagram generated successfully!"
                  "Your diagram is ready for viewing and editing" false) ]).
Proof.
  intros Hp Hk Ha Hraw Hdb. unfold handleGenerate. run_handler.
  apply truthy_true in Hp, Hk. rewrite Hp, Hk. cbv beta iota delta [negb].
  run_handler. rewrite Ha. run_handler.
  rewrite generateCode_run, <- Hraw. run_handler.
  rewrite Hdb. reflexivity.
Qed.




(** C2 (amended). In the prompt flow, for a request with a prompt that is
    not blank and a kind of the fixed enumeration, whose auth and store
    calls succeed, the record persisted has as
    description the clean-up of what the completion service returned,
    trimmed, or of the fallback skeleton when the call raised; in both cases
    it holds no fence marker, and when it comes from the fallback it is not
    empty. *)
Theorem persisted_description_is_cleaned
    (env : Env) (st : State) (user : User) :
  JS.trim (prompt st) <> "" ->
  In (diagramType st) (DIAGRAM_TYPES ++ DatasetUploader.CHART_TYPES)%list ->
  auth_me env = Ok user ->
  (forall r, db_create env r = Ok tt) ->
  let o := run (handleGenerate env) st in
  exists d,
    result o = Ok tt
    /\ generatedDiagram (final o) = Some d
    /\ created (trace o) = [d]
    /\ Diagram.type d = diagramType st
    /\ Diagram.diagramCode d =
         cleanUp
           match ai_generateText env
                   (promptToUse (prompt st) (diagramType st)) "gpt-4o-mini" with
           | Ok text => JS.trim text
           | Raise _ => fallbackCode (prompt st) (diagramType st)
           end
    /\ JS.includes (Diagram.diagramCode d) FENCE = false
    /\ ((exists e, ai_generateText env
                     (promptToUse (prompt st) (diagramType st)) "gpt-4o-mini"
                   = Raise e) ->
        Diagram.diagramCode d <> "").
Proof.
  intros Hp Hk Ha Hdb o.
  apply enumeration_kinds_present in Hk.
  pose proof (handleGenerate_run env st user _ Hp Hk Ha eq_refl (Hdb _)) as Hrun.
  subst o. rewrite Hrun. eexists.
  split; [reflexivity|]. split; [reflexivity|]. split; [reflexivity|].
  split; [reflexivity|]. split; [reflexivity|].
  split; [apply cleanUp_no_fence|].
  intros [e He]. cbn [final fst snd Diagram.diagramCode diagramData].
  rewrite He. apply (cleanUp_fallback (prompt st) (diagramType st)).
Qed.

Lemma persisted_description_is_cleaned_witness :
  JS.trim (prompt Examples.photosynthesis) <> ""
  /\ In (diagramType Examples.photosynthesis)
        (DIAGRAM_TYPES ++ DatasetUploader.CHART_TYPES)%list
  /\ exists d,
       generatedDiagram
         (final (run (handleGenerate (Examples.env_ok Examples.fencedPie))
                     Examples.photosynthesis)) = Some d
       /\ Diagram.diagramCode d = "pie".
Proof.
  assert (Hp : JS.trim (prompt Examples.photosynthesis) <> "")
    by (vm_compute; discriminate).
  assert (Hk : In (diagramType Examples.photosynthesis)
                  (DIAGRAM_TYPES ++ DatasetUploader.CHART_TYPES)%list)
    by (left; reflexivity).
  split; [exact Hp|]. split; [exact Hk|].
  pose proof (persisted_description_is_cleaned
                (Examples.env_ok Examples.fencedPie) Examples.photosynthesis
                Examples.alice Hp Hk eq_refl (fun _ => eq_refl)) as H.
  cbv zeta in H. destruct H as (d & _ & Hg & _ & _ & Hc & _).
  exists d. split; [exact Hg|]. rewrite Hc. vm_compute. reflexivity.
Defined.

End PromptFlow.

(** ** Runs that end without a record, or with an unclean description *)

Section Counterexamples.
Import Shape Examples.


(** C2, counterexample.  In the prompt flow a completion made of fences
    alone is persisted as an empty description; in the dataset flow and in
    the document flow the completion is persisted as it came, fences
    included. *)
Lemma description_empty_or_fenced :
  (let o := run (TextPromptGenerator.handleGenerate (env_ok emptyFence))
                photosynthesis in
   map Diagram.diagramCode (created (trace o)) = [""])
  /\ (let o := run (DatasetUploader.handleGenerateChart stringify
                      (env_ok fencedPie)) dataset in
      map Diagram.diagramCode (created (trace o)) = [fencedPie]
      /\ JS.includes fencedPie FENCE = true)
  /\ (let o := run (PDFProcessor.handleProcessPDF
                      (mkEnv (Ok alice) (fun _ _ => Ok fencedPie)
                         (fun _ => Ok tt) (fun _ => Ok tt) (fun _ => Ok [])
                         (fun f _ => Ok "https://storage/paper.pdf")
                         (fun _ => Ok longText) (fun _ => true)
                         1720000000000 "2024-07-03T09:46:40.000Z"))
                   pdfSelected in
      map Diagram.diagramCode (created (trace o)) = [fencedPie]).
Proof. vm_compute. repeat split; reflexivity. Qed.

End Counterexamples.

(** * Further properties of the handlers *)

(** ** Outcomes of the prompt flow *)

Section PromptOutcome.
Import TextPromptGenerator.

(** Whatever the collaborators do, [handleGenerate] returns; it leaves the
    prompt and the kind alone, hands at most one record to the store and
    shows exactly one toast.  The toast announces a success only when the
    store accepted a record, which is then the one displayed; after any
    other toast the diagram displayed before is still the one displayed.
    Once validation is passed the busy flag ends cleared. *)
Theorem handleGenerate_outcome (env : Env) (st : State) :
  let o := run (handleGenerate env) st in
  result o = Ok tt
  /\ prompt (final o) = prompt st
  /\ diagramType (final o) = diagramType st
  /\ (List.length (created (trace o)) <= 1)%nat
  /\ (isGenerating (final o) = true ->
      isGenerating st = true /\ noExternalCall (trace o))
  /\ exists t,
       toasts (trace o) = [t]
       /\ (toast_destructive t = false ->
           exists d, generatedDiagram (final o) = Some d
                     /\ created (trace o) = [d]
                     /\ db_create env d = Ok tt
                     /\ Diagram.type d = diagramType st
                     /\ Diagram.prompt d = Some (prompt st))
       /\ (toast_destructive t = true ->
           generatedDiagram (final o) = generatedDiagram st).
Proof.
  intros o. subst o. unfold handleGenerate, noExternalCall. run_handler.
  destruct (JS.truthy (JS.trim (prompt st))); cbv beta iota delta [negb];
    [destruct (JS.truthy (diagramType st)); cbv beta iota delta [negb];
     [run_handler; destruct (auth_me env) as [user|e0]; run_handler;
      [rewrite generateCode_run; run_handler;
       match goal with
       | |- context [db_create env ?d] =>
           destruct (db_create env d) as [[]|e1] eqn:Hdb
       end; run_handler |] | run_handler] | run_handler];
    cbn [isGenerating setIsGenerating setGeneratedDiagram prompt diagramType
         generatedDiagram created toasts flat_map app List.length forallb
         isExternalCall negb andb];
    (repeat split; try lia; try congruence);
    eexists; (split; [reflexivity|]);
    cbn [toast_destructive];
    (split; [|congruence]); try congruence.
  intros _. eexists. repeat split. exact Hdb.
Qed.

End PromptOutcome.

(** ** Outcomes of the dataset flow *)

Section DatasetOutcome.
Import DatasetUploader.
Variable JSON_stringify : list Point -> string.

(** Whatever the collaborators do, [handleGenerateChart] returns, changes
    nothing but the busy flag and the generated chart, hands at most one
    record to the store and shows exactly one toast.  A success is
    announced only when the store accepted a record; that record has the
    chosen chart kind, the text of the completion service unchanged as its
    description, and the serialised reduced data as its source.  After any
    other toast the chart displayed before is still displayed. *)
Theorem handleGenerateChart_outcome (env : Env) (st : State) :
  let o := run (handleGenerateChart JSON_stringify env) st in
  let data := chartData (selectedColumns st) (parsedData st) in
  result o = Ok tt
  /\ final o = setGeneratedChart (generatedChart (final o))
                 (setIsProcessing (isProcessing (final o)) st)
  /\ (List.length (created (trace o)) <= 1)%nat
  /\ (isProcessing (final o) = true ->
      isProcessing st = true /\ noExternalCall (trace o))
  /\ exists t,
       toasts (trace o) = [t]
       /\ (toast_destructive t = false ->
           exists d,
             generatedChart (final o) = Some d
             /\ created (trace o) = [d]
             /\ db_create env d = Ok tt
             /\ Diagram.type d = chartType st
             /\ ai_generateText env
                  (chartPrompt JSON_stringify (chartType st)
                               (selectedColumns st) data) "gpt-4o-mini"
                = Ok (Diagram.diagramCode d)
             /\ Diagram.sourceData d = Some (JSON_stringify data))
       /\ (toast_destructive t = true ->
           generatedChart (final o) = generatedChart st).
Proof.
  intros o data. subst o data.
  unfold handleGenerateChart, noExternalCall. run_handler.
  destruct ((List.length (parsedData st) =? 0)%nat
            || negb (JS.truthy (chartType st))
            || negb (JS.truthy (col_x (selectedColumns st)))
            || negb (JS.truthy (col_y (selectedColumns st))))%bool;
    [run_handler
    |run_handler; destruct (auth_me env) as [user|e0]; run_handler;
     [match goal with
      | |- context [ai_generateText env ?i ?m] =>
          destruct (ai_generateText env i m) as [code|e1]
      end; run_handler;
      [match goal with
       | |- context [db_create env ?d] =>
           destruct (db_create env d) as [[]|e2] eqn:Hdb
       end; run_handler | ] | ]];
    cbn [isProcessing setIsProcessing setGeneratedChart generatedChart
         created toasts flat_map app List.length forallb isExternalCall
         negb andb];
    (repeat split; try lia; try congruence; try (destruct st; reflexivity));
    eexists; (split; [reflexivity|]);
    cbn [toast_destructive];
    (split; [|congruence]); try congruence.
  intros _. eexists. repeat split. exact Hdb.
Qed.

End DatasetOutcome.

(** ** Outcomes of the document flow *)

Section DocumentOutcome.
Import PDFProcessor.

(** Without a selected file [handleProcessPDF] does nothing.  With one,
    whatever the collaborators do, it returns with the busy flag cleared
    and exactly one toast.  A success is announced only when the store
    accepted a record: a mind map whose excerpt is the first 2000 code
    units of an extracted text of trimmed length 100 or more, with the
    progress at 100.  After any other toast the mind map displayed before
    is still displayed and the progress is below 100. *)
Theorem handleProcessPDF_outcome (env : Env) (st : State) :
  let o := run (handleProcessPDF env) st in
  result o = Ok tt
  /\ file (final o) = file st
  /\ (List.length (created (trace o)) <= 1)%nat
  /\ match file st with
     | None => final o = st /\ trace o = []
     | Some f =>
         isProcessing (final o) = false
         /\ exists t,
              toasts (trace o) = [t]
              /\ (toast_destructive t = false ->
                  exists d,
                    generatedMindMap (final o) = Some d
                    /\ created (trace o) = [d]
                    /\ db_create env d = Ok tt
                    /\ Diagram.type d = "mindmap"
                    /\ Diagram.extractedText d
                       = Some (JS.slice0 2000 (extractedText (final o)))
                    /\ (100 <= String.length (JS.trim (extractedText (final o))))%nat
                    /\ progress (final o) = 100%nat
                    /\ processingStep (final o) = "Complete!")
              /\ (toast_destructive t = true ->
                  generatedMindMap (final o) = generatedMindMap st
                  /\ (progress (final o) < 100)%nat)
     end.
Proof.
  intros o. subst o. unfold handleProcessPDF. run_handler.
  destruct (file st) as [f|] eqn:Hf; run_handler;
    [|repeat split; try exact Hf; cbn; lia].
  destruct (auth_me env) as [user|e0]; run_handler;
    [match goal with
     | |- context [storage_upload env ?a ?b] =>
         destruct (storage_upload env a b) as [url|e1]
     end; run_handler;
     [destruct (data_extractFromUrl env url) as [text|e2]; run_handler;
      [destruct (negb (JS.truthy text)
                 || (String.length (JS.trim text) <? 100)%nat)%bool eqn:Hlen;
       run_handler;
       [|match goal with
         | |- context [ai_generateText env ?i ?m] =>
             destruct (ai_generateText env i m) as [code|e3]
         end; run_handler;
         [match goal with
          | |- context [db_create env ?d] =>
              destruct (db_create env d) as [[]|e4] eqn:Hdb
          end; run_handler | ]] | ] | ] | ];
    cbn [file isProcessing progress extractedText generatedMindMap
         processingStep setFile setIsProcessing setProgress setExtractedText
         setGeneratedMindMap setProcessingStep
         created toasts flat_map app List.length];
    (split; [reflexivity|]); (split; [exact Hf|]); (split; [lia|]);
    (split; [reflexivity|]);
    eexists; (split; [reflexivity|]);
    cbn [toast_destructive];
    (split; [|try congruence]); try congruence;
    try (intros _; split; [reflexivity|lia]).
  intros _. eexists.
  apply orb_false_elim in Hlen as [_ Hlen]. apply Nat.ltb_ge in Hlen.
  repeat split; [exact Hdb|exact Hlen].
Qed.

End DocumentOutcome.

(** ** More on the clean-up *)

Section CleanUpMore.
Import Shape TextPromptGenerator.

Lemma append_nil_r (s : string) : s ++ "" = s.
Proof.
  induction s as [|c s IH]; [reflexivity|].
  rewrite append_cons, IH. reflexivity.
Qed.

Lemma append_assoc (a b c : string) : (a ++ b) ++ c = a ++ (b ++ c).
Proof.
  induction a as [|x a IH]; [reflexivity|].
  rewrite !append_cons, IH. reflexivity.
Qed.

(** The scan does not depend on the fuel once there is enough of it. *)
Lemma removeAll_fuel (a : ascii) (lit : string) (f1 f2 : nat) (s : string) :
  (String.length s < f1)%nat -> (String.length s < f2)%nat ->
  JS.removeAll f1 (String a lit) s = JS.removeAll f2 (String a lit) s.
Proof.
  revert f2 s. induction f1 as [|f1 IH]; intros f2 s H1 H2; [lia|].
  destruct f2 as [|f2]; [lia|].
  destruct s as [|c s]; [reflexivity|].
  cbn [JS.removeAll].
  destruct (JS.dropPrefix (String a lit) (String c s)) as [r|] eqn:D.
  - apply dropPrefix_length in D. pose proof (dropNewline_length r).
    cbn [String.length] in D, H1, H2. apply IH; lia.
  - cbn [String.length] in H1, H2. f_equal. apply IH; lia.
Qed.

(** At a match the literal and one line feed go. *)
Lemma replaceGlobal_match (a : ascii) (lit s r : string) :
  JS.dropPrefix (String a lit) s = Some r ->
  JS.replaceGlobal (String a lit) s
  = JS.replaceGlobal (String a lit) (JS.dropNewline r).
Proof.
  intros D. unfold JS.replaceGlobal.
  destruct s as [|c s]; [discriminate D|].
  remember (JS.removeAll (S (String.length (JS.dropNewline r)))
              (String a lit) (JS.dropNewline r)) as rhs eqn:R.
  cbn [JS.removeAll]. rewrite D. subst rhs.
  apply dropPrefix_length in D. pose proof (dropNewline_length r).
  cbn [String.length] in D. apply removeAll_fuel; cbn [String.length]; lia.
Qed.

Lemma dropPrefix_startsWith (p q s r : string) :
  JS.dropPrefix (p ++ q) s = Some r -> JS.startsWith s p = true.
Proof.
  revert s. induction p as [|a p IH]; intros s H; [apply startsWith_nil|].
  rewrite append_cons in H. destruct s as [|c s]; [discriminate H|].
  cbn [JS.dropPrefix] in H. rewrite startsWith_cons.
  destruct (Ascii.eqb a c); [|discriminate H].
  apply (IH _ H).
Qed.

(** Without a fence marker both replacements change nothing. *)
Lemma removeAll_no_match (lit s : string) (fuel : nat) :
  JS.includes s FENCE = false ->
  JS.removeAll fuel (FENCE ++ lit) s = s.
Proof.
  revert s. induction fuel as [|fuel IH]; intros s H; [reflexivity|].
  destruct s as [|c s]; [reflexivity|].
  cbn [JS.includes] in H.
  destruct (JS.startsWith (String c s) FENCE) eqn:Hs; [discriminate H|].
  cbn [JS.removeAll].
  destruct (JS.dropPrefix (FENCE ++ lit) (String c s)) as [r|] eqn:D.
  - apply dropPrefix_startsWith in D. congruence.
  - rewrite (IH _ H). reflexivity.
Qed.

Lemma trimStart_shape (s : string) :
  JS.trimStart s = "" \/ startsSolid (JS.trimStart s) = true.
Proof.
  induction s as [|c s IH]; [left; reflexivity|].
  cbn [JS.trimStart]. destruct (JS.isWhiteSpace c) eqn:W; [exact IH|].
  right. cbn [startsSolid]. rewrite W. reflexivity.
Qed.

Lemma trimStart_fixed (s : string) :
  s = "" \/ startsSolid s = true -> JS.trimStart s = s.
Proof.
  intros [->|H]; [reflexivity|].
  destruct s as [|c s]; [discriminate H|].
  cbn [startsSolid] in H. cbn [JS.trimStart].
  destruct (JS.isWhiteSpace c); [discriminate H|reflexivity].
Qed.

Lemma trimEnd_shape (s : string) :
  JS.trimEnd s = "" \/ endsSolid (JS.trimEnd s) = true.
Proof.
  induction s as [|c s IH]; [left; reflexivity|].
  cbn [JS.trimEnd]. destruct (JS.trimEnd s) as [|c' t] eqn:T.
  - destruct (JS.isWhiteSpace c) eqn:W; [left; reflexivity|].
    right. cbn [endsSolid]. rewrite W. reflexivity.
  - right. destruct IH as [IH|IH]; [discriminate IH|exact IH].
Qed.

Lemma trimEnd_fixed (s : string) :
  s = "" \/ endsSolid s = true -> JS.trimEnd s = s.
Proof.
  intros [->|H]; [reflexivity|].
  induction s as [|c s IH]; [discriminate H|].
  cbn [JS.trimEnd]. destruct s as [|c' s].
  - cbn [endsSolid] in H. cbn [JS.trimEnd].
    destruct (JS.isWhiteSpace c); [discriminate H|reflexivity].
  - rewrite IH by exact H. reflexivity.
Qed.

Lemma trimEnd_startsSolid (s : string) :
  startsSolid s = true -> startsSolid (JS.trimEnd s) = true.
Proof.
  destruct s as [|c s]; [discriminate|]. cbn [startsSolid JS.trimEnd].
  intros H. destruct (JS.trimEnd s).
  - destruct (JS.isWhiteSpace c) eqn:W; [discriminate H|].
    cbn [startsSolid]. rewrite W. reflexivity.
  - exact H.
Qed.

(** A trimmed string is empty or solid at both ends, and trimming it again
    changes nothing. *)
Lemma trim_shape (s : string) :
  JS.trim s = "" \/ (startsSolid (JS.trim s) = true /\ endsSolid (JS.trim s) = true).
Proof.
  unfold JS.trim.
  destruct (trimEnd_shape (JS.trimStart s)) as [E|E]; [left; exact E|].
  right. split; [|exact E].
  destruct (trimStart_shape s) as [S|S].
  - rewrite S in E. discriminate E.
  - apply trimEnd_startsSolid, S.
Qed.

Lemma trim_fixed (s : string) :
  s = "" \/ (startsSolid s = true /\ endsSolid s = true) -> JS.trim s = s.
Proof.
  intros H. unfold JS.trim.
  rewrite trimStart_fixed by tauto. apply trimEnd_fixed. tauto.
Qed.

Lemma trim_idempotent (s : string) : JS.trim (JS.trim s) = JS.trim s.
Proof. apply trim_fixed, trim_shape. Qed.

(** The clean-up is idempotent, and what it returns is empty or has
    neither leading nor trailing white space. *)
Theorem cleanUp_idempotent_and_trimmed (code : string) :
  cleanUp (cleanUp code) = cleanUp code
  /\ (cleanUp code = ""
      \/ (startsSolid (cleanUp code) = true /\ endsSolid (cleanUp code) = true)).
Proof.
  split; [|apply trim_shape].
  pose proof (cleanUp_no_fence code) as Hn.
  unfold cleanUp at 1.
  change "```mermaid" with (FENCE ++ "mermaid").
  change "```" with (FENCE ++ "") at 1.
  unfold JS.replaceGlobal. rewrite !removeAll_no_match.
  - unfold cleanUp. apply trim_idempotent.
  - exact Hn.
  - rewrite removeAll_no_match by exact Hn. exact Hn.
Qed.

Lemma endsSolid_app (p q : string) :
  endsSolid q = true -> endsSolid (p ++ q) = true.
Proof.
  intros H. induction p as [|c p IH]; [exact H|].
  rewrite append_cons. cbn [endsSolid].
  destruct (p ++ q); [discriminate IH|exact IH].
Qed.

(** A description wrapped in a mermaid fence comes out bare: for a body
    without backticks that neither starts nor ends with white space, the
    description stored for the completion made of the opening fence, the
    body and the closing fence, each on its own line, is the body. *)
Theorem cleanUp_unwraps_fenced_block (body : string) :
  noBacktick body = true -> startsSolid body = true -> endsSolid body = true ->
  cleanUp (JS.trim ("```mermaid" ++ JS.nl ++ body ++ JS.nl ++ "```")) = body.
Proof.
  intros Hb Hs He.
  rewrite trim_fixed.
  2:{ right. split; [reflexivity|]. repeat apply endsSolid_app. reflexivity. }
  unfold cleanUp.
  rewrite (replaceGlobal_match "`"%char "``mermaid"
             ("```mermaid" ++ JS.nl ++ body ++ JS.nl ++ "```")
             (JS.nl ++ body ++ JS.nl ++ "```") eq_refl).
  change (JS.dropNewline (JS.nl ++ body ++ JS.nl ++ "```"))
    with (body ++ JS.nl ++ "```").
  rewrite !replaceGlobal_keep by exact Hb.
  change (JS.replaceGlobal "```mermaid" (JS.nl ++ "```")) with (JS.nl ++ "```").
  change (JS.replaceGlobal "```" (JS.nl ++ "```")) with JS.nl.
  unfold JS.trim. rewrite trimStart_keep by exact Hs.
  rewrite trimEnd_keep by exact He.
  change (JS.trimEnd JS.nl) with "". apply append_nil_r.
Qed.

Lemma cleanUp_unwraps_fenced_block_witness :
  noBacktick "pie title Pets" = true
  /\ cleanUp (JS.trim ("```mermaid" ++ JS.nl ++ "pie title Pets" ++ JS.nl ++ "```"))
     = "pie title Pets".
Proof.
  split; [reflexivity|].
  apply (cleanUp_unwraps_fenced_block "pie title Pets" eq_refl eq_refl eq_refl).
Defined.

End CleanUpMore.

(** ** Bounded texts *)

Section Bounds.

Lemma slice0_length (n : nat) (s : string) :
  String.length (JS.slice0 n s) = Nat.min n (String.length s).
Proof.
  revert s. induction n as [|n IH]; intros s; [reflexivity|].
  destruct s as [|c s]; [reflexivity|].
  cbn [JS.slice0 String.length Nat.min]. rewrite IH. reflexivity.
Qed.

Lemma slice0_prefix (n : nat) (s : string) :
  JS.startsWith s (JS.slice0 n s) = true.
Proof.
  revert s. induction n as [|n IH]; intros s; [apply startsWith_nil|].
  destruct s as [|c s]; [reflexivity|].
  cbn [JS.slice0]. rewrite startsWith_cons, Ascii.eqb_refl. apply IH.
Qed.

Lemma slice0_all (n : nat) (s : string) :
  (String.length s <= n)%nat -> JS.slice0 n s = s.
Proof.
  revert s. induction n as [|n IH]; intros s H.
  - destruct s; [reflexivity|cbn in H; lia].
  - destruct s as [|c s]; [reflexivity|].
    cbn [JS.slice0]. rewrite IH; [reflexivity|cbn in H; lia].
Qed.

(** Every record the prompt flow hands to the store is titled with the
    first 100 code units of the prompt (the whole prompt when it is that
    short), carries the prompt and the kind, a cleaned description, and the
    identifier made of the clock reading. *)
Theorem prompt_records_titled (env : Env) (st : TextPromptGenerator.State) :
  Forall
    (fun d =>
       (String.length (Diagram.title d) <= 100)%nat
       /\ JS.startsWith (TextPromptGenerator.prompt st) (Diagram.title d) = true
       /\ ((String.length (TextPromptGenerator.prompt st) <= 100)%nat ->
           Diagram.title d = TextPromptGenerator.prompt st)
       /\ Diagram.prompt d = Some (TextPromptGenerator.prompt st)
       /\ Diagram.type d = TextPromptGenerator.diagramType st
       /\ Diagram.id d = "diagram_" ++ JS.showN (Date_now env)
       /\ JS.includes (Diagram.diagramCode d) Shape.FENCE = false)
    (created (trace (run (TextPromptGenerator.handleGenerate env) st))).
Proof.
  unfold TextPromptGenerator.handleGenerate. run_handler.
  destruct (JS.truthy (JS.trim (TextPromptGenerator.prompt st)));
    cbv beta iota delta [negb]; [|run_handler; constructor].
  destruct (JS.truthy (TextPromptGenerator.diagramType st));
    cbv beta iota delta [negb]; [|run_handler; constructor].
  run_handler. destruct (auth_me env) as [user|e0]; run_handler;
    [|constructor].
  rewrite generateCode_run. run_handler.
  match goal with
  | |- context [db_create env ?d] => destruct (db_create env d) as [[]|e1]
  end; run_handler; cbn [created flat_map app];
    (constructor; [|constructor]);
    cbn [TextPromptGenerator.diagramData Diagram.title Diagram.prompt
         Diagram.type Diagram.id Diagram.diagramCode];
    (split; [rewrite slice0_length; lia|]);
    (split; [apply slice0_prefix|]);
    (split; [apply slice0_all|]);
    repeat split; apply cleanUp_no_fence.
Qed.

(** The instruction of the document flow is bounded whatever the length of
    the document: it embeds the first 4000 code units of the extracted
    text, followed by a marker of 14 code units when the text is longer. *)
Theorem mindMapPrompt_length (text : string) :
  String.length (PDFProcessor.mindMapPrompt text)
  = (557 + Nat.min 4000 (String.length text)
     + (if (4000 <? String.length text)%nat then 14 else 0))%nat
  /\ (String.length (PDFProcessor.mindMapPrompt text) <= 4571)%nat.
Proof.
  assert (E : String.length (PDFProcessor.mindMapPrompt text)
              = (557 + Nat.min 4000 (String.length text)
                 + (if (4000 <? String.length text)%nat then 14 else 0))%nat).
  { unfold PDFProcessor.mindMapPrompt. cbn [JS.lines].
    rewrite !string_length_app, slice0_length.
    generalize (Nat.min 4000 (String.length text)). intros a.
    destruct (4000 <? String.length text)%nat; cbn [String.length JS.nl JS.dq];
      lia. }
  split; [exact E|]. rewrite E.
  pose proof (Nat.le_min_l 4000 (String.length text)).
  destruct (4000 <? String.length text)%nat; lia.
Qed.

End Bounds.

(** ** The instruction of the prompt flow *)

Section Instruction.
Import TextPromptGenerator.

Lemma includes_here (s x : string) :
  JS.startsWith s x = true -> JS.includes s x = true.
Proof. intros H. destruct s; cbn [JS.includes]; rewrite H; reflexivity. Qed.

Lemma includes_app_l (a s x : string) :
  JS.includes s x = true -> JS.includes (a ++ s) x = true.
Proof.
  intros H. induction a as [|c a IH]; [exact H|].
  rewrite append_cons. cbn [JS.includes]. rewrite IH.
  destruct (JS.startsWith (String c (a ++ s)) x); reflexivity.
Qed.

(** A string occurs in whatever is built around it. *)
Lemma includes_middle (a x c : string) : JS.includes (a ++ x ++ c) x = true.
Proof. apply includes_app_l, includes_here, startsWith_app. Qed.

Lemma diagramPrompts_other (prompt k : string) :
  k <> "flowchart" -> k <> "mindmap" -> k <> "sequence" -> k <> "class" ->
  k <> "gantt" ->
  diagramPrompts prompt !! k = None.
Proof.
  intros H1 H2 H3 H4 H5. unfold diagramPrompts.
  apply not_elem_of_list_to_map_1. cbn [fmap list_fmap fst].
  rewrite !elem_of_cons, elem_of_nil. tauto.
Qed.

Lemma endsWith_refl (s : string) : JS.endsWith s s = true.
Proof. destruct s; cbn [JS.endsWith]; rewrite String.eqb_refl; reflexivity. Qed.

Lemma endsWith_app_l (a s suf : string) :
  JS.endsWith s suf = true -> JS.endsWith (a ++ s) suf = true.
Proof.
  intros H. induction a as [|c a IH]; [exact H|].
  rewrite append_cons. cbn [JS.endsWith]. rewrite IH.
  destruct (String.eqb (String c (a ++ s)) suf); reflexivity.
Qed.

(** The keyword of a kind's template is the one its last line asks the
    completion service to start with. *)
Lemma templateKeyword_asked (prompt k kw : string) :
  Shape.templateKeyword k = Some kw ->
  JS.endsWith (promptToUse prompt k)
    ("        Return ONLY the Mermaid code starting with "
     ++ JS.dq ++ kw ++ JS.dq ++ ".") = true.
Proof.
  unfold Shape.templateKeyword, promptToUse, diagramPrompts.
  rewrite !list_to_map_cons.
  destruct (String.eqb_spec k "flowchart") as [->|N1];
    [|destruct (String.eqb_spec k "mindmap") as [->|N2];
      [|destruct (String.eqb_spec k "sequence") as [->|N3];
        [|destruct (String.eqb_spec k "class") as [->|N4];
          [|destruct (String.eqb_spec k "gantt") as [->|N5];
            [|discriminate]]]]];
    intros [= <-];
    repeat first [ rewrite lookup_insert_eq
                 | rewrite lookup_insert_ne by discriminate ];
    cbn [orElse JS.lines]; rewrite !append_assoc;
    repeat first [ apply endsWith_refl | apply endsWith_app_l ].
Qed.

(** For every kind the selector offers, the instruction sent to the
    completion service carries the whole prompt between double quotes; for
    a kind without a template of its own it also names the kind. *)
Theorem promptToUse_carries_prompt (prompt k : string) :
  In k DIAGRAM_TYPES ->
  JS.includes (promptToUse prompt k) (JS.dq ++ prompt ++ JS.dq) = true
  /\ (diagramPrompts prompt !! k = None ->
      JS.includes (promptToUse prompt k) k = true).
Proof.
  intros _.
  assert (Q : forall a c : string,
             JS.includes (a ++ JS.dq ++ prompt ++ JS.dq ++ c)
                         (JS.dq ++ prompt ++ JS.dq) = true).
  { intros a c.
    replace (JS.dq ++ prompt ++ JS.dq ++ c)
      with ((JS.dq ++ prompt ++ JS.dq) ++ c)
      by (rewrite !append_assoc; reflexivity).
    apply includes_middle. }
  assert (L : forall key : string,
             In key ["flowchart"; "mindmap"; "sequence"; "class"; "gantt"] ->
             exists a c,
               orElse (diagramPrompts prompt !! key)
                 ("Create a " ++ key ++ " diagram for: " ++ JS.dq ++ prompt
                  ++ JS.dq
                  ++ ". Use proper Mermaid syntax and return only the diagram code.")
               = a ++ JS.dq ++ prompt ++ JS.dq ++ c).
  { intros key Hk. unfold diagramPrompts. rewrite !list_to_map_cons.
    cbn [In] in Hk.
    repeat (destruct Hk as [<-|Hk];
            [repeat first [ rewrite lookup_insert_eq
                          | rewrite lookup_insert_ne by discriminate ];
             cbn [JS.lines]; rewrite !append_assoc;
             eexists _, _; reflexivity|]).
    contradiction. }
  split.
  - unfold promptToUse.
    destruct (String.eqb_spec k "flowchart") as [->|N1];
      [destruct (L "flowchart") as (a & c & ->); [cbn [In]; tauto|apply Q]|].
    destruct (String.eqb_spec k "mindmap") as [->|N2];
      [destruct (L "mindmap") as (a & c & ->); [cbn [In]; tauto|apply Q]|].
    destruct (String.eqb_spec k "sequence") as [->|N3];
      [destruct (L "sequence") as (a & c & ->); [cbn [In]; tauto|apply Q]|].
    destruct (String.eqb_spec k "class") as [->|N4];
      [destruct (L "class") as (a & c & ->); [cbn [In]; tauto|apply Q]|].
    destruct (String.eqb_spec k "gantt") as [->|N5];
      [destruct (L "gantt") as (a & c & ->); [cbn [In]; tauto|apply Q]|].
    rewrite diagramPrompts_other by assumption. cbn [orElse].
    do 2 apply includes_app_l. apply (Q "").
  - intros Hn. unfold promptToUse. rewrite Hn. cbn [orElse].
    apply includes_middle.
Qed.

Lemma promptToUse_carries_prompt_witness :
  In "pie" DIAGRAM_TYPES
  /\ JS.includes (promptToUse "Market shares" "pie")
                 (JS.dq ++ "Market shares" ++ JS.dq) = true
  /\ JS.includes (promptToUse "Market shares" "pie") "pie" = true.
Proof.
  assert (Hk : In "pie" DIAGRAM_TYPES) by (cbn [DIAGRAM_TYPES In]; tauto).
  split; [exact Hk|].
  destruct (promptToUse_carries_prompt "Market shares" "pie" Hk) as [H1 H2].
  split; [exact H1|]. apply H2. vm_compute. reflexivity.
Defined.

End Instruction.

(** ** The buttons and the guards of the handlers *)

Section Buttons.

(** The "Generate Diagram" button is enabled exactly when the component is
    idle and the handler's validation would pass: a click on the enabled
    button starts with the auth call, never with a validation toast; and
    when the idle component keeps the button disabled, the handler would
    refuse without calling anything. *)
Theorem generate_button_matches_validation
    (env : Env) (st : TextPromptGenerator.State) :
  let o := run (TextPromptGenerator.handleGenerate env) st in
  (PromptView.generateDisabled st = false ->
   exists rest, trace o = AuthMe :: rest)
  /\ (TextPromptGenerator.isGenerating st = false ->
      PromptView.generateDisabled st = true ->
      noExternalCall (trace o) /\ final o = st).
Proof.
  intros o. subst o.
  unfold PromptView.generateDisabled, TextPromptGenerator.handleGenerate,
    noExternalCall.
  run_handler.
  destruct (TextPromptGenerator.isGenerating st);
    destruct (JS.truthy (JS.trim (TextPromptGenerator.prompt st)));
    destruct (JS.truthy (TextPromptGenerator.diagramType st));
    cbv beta iota delta [negb orb]; run_handler;
    (split; [try discriminate | try discriminate; try (intros _ _; split; reflexivity)]).
  intros _. destruct (auth_me env); run_handler.
  - rewrite generateCode_run. run_handler.
    match goal with
    | |- context [db_create env ?d] => destruct (db_create env d) as [[]|e1]
    end; run_handler; eexists; reflexivity.
  - eexists; reflexivity.
Qed.

Lemma generate_button_matches_validation_witness :
  PromptView.generateDisabled Examples.photosynthesis = false
  /\ exists rest,
       trace (run (TextPromptGenerator.handleGenerate (Examples.env_ok "pie"))
                  Examples.photosynthesis) = AuthMe :: rest.
Proof.
  split; [reflexivity|].
  apply (generate_button_matches_validation (Examples.env_ok "pie")
           Examples.photosynthesis). reflexivity.
Defined.

(** The "Generate Chart" button is shown once rows are parsed; when it is
    shown and enabled, the handler's check of the inputs passes and a click
    starts with the auth call. *)
Theorem chart_button_matches_validation
    (stringify : list DatasetUploader.Point -> string)
    (env : Env) (st : DatasetUploader.State) :
  DatasetFile.chartButtonShown st = true ->
  DatasetFile.chartButtonDisabled st = false ->
  exists rest,
    trace (run (DatasetUploader.handleGenerateChart stringify env) st)
    = AuthMe :: rest.
Proof.
  unfold DatasetFile.chartButtonShown, DatasetFile.chartButtonDisabled,
    DatasetUploader.handleGenerateChart.
  intros Hs Hd. run_handler.
  apply Nat.ltb_lt in Hs.
  destruct (List.length (DatasetUploader.parsedData st)) as [|n] eqn:Hn; [lia|].
  apply orb_false_elim in Hd as [Hd Hy].
  apply orb_false_elim in Hd as [Hd Hx].
  apply orb_false_elim in Hd as [_ Hk].
  rewrite Hk, Hx, Hy. cbv beta iota delta [Nat.eqb orb]. run_handler.
  destruct (auth_me env); run_handler; [|eexists; reflexivity].
  match goal with
  | |- context [ai_generateText env ?i ?m] =>
      destruct (ai_generateText env i m)
  end; run_handler; [|eexists; reflexivity].
  match goal with
  | |- context [db_create env ?d] => destruct (db_create env d) as [[]|e1]
  end; run_handler; eexists; reflexivity.
Qed.

Lemma chart_button_matches_validation_witness :
  DatasetFile.chartButtonShown Examples.dataset = true
  /\ DatasetFile.chartButtonDisabled Examples.dataset = false
  /\ exists rest,
       trace (run (DatasetUploader.handleGenerateChart Examples.stringify
                     (Examples.env_ok "pie")) Examples.dataset)
       = AuthMe :: rest.
Proof.
  split; [reflexivity|]. split; [reflexivity|].
  apply (chart_button_matches_validation Examples.stringify
           (Examples.env_ok "pie") Examples.dataset eq_refl eq_refl).
Defined.

End Buttons.

(** ** Reading an uploaded dataset *)

Section DatasetUpload.
Import DatasetUploader DatasetFile.

(** A file whose name does not end in .csv, .xlsx or .json (whatever the
    case) is refused with a destructive toast: it does not become the
    selected file, its content is not looked at, and the state is
    unchanged. *)
Theorem upload_rejects_other_types
    (f : File) (content1 content2 : res string) (st : State) :
  hasDataExtension (file_name f) = false ->
  let o := run (handleFileUpload (Some f) content1) st in
  o = (Ok tt, st,
       [ShowToast (mkToast "Invalid file type"
                     "Please upload a CSV, Excel, or JSON file" true)])
  /\ run (handleFileUpload (Some f) content2) st = o.
Proof.
  intros H o. subst o. unfold handleFileUpload. rewrite H.
  cbv beta iota delta [negb]. run_handler. split; reflexivity.
Qed.

Lemma upload_rejects_other_types_witness :
  hasDataExtension "notes.txt" = false
  /\ final (run (handleFileUpload (Some (mkFile "notes.txt" 10)) (Ok "a,b"))
                Examples.dataset) = Examples.dataset.
Proof.
  split; [reflexivity|].
  pose proof (upload_rejects_other_types (mkFile "notes.txt" 10) (Ok "a,b")
                (Ok "") Examples.dataset eq_refl) as H.
  cbv zeta in H. destruct H as [H _]. rewrite H. reflexivity.
Defined.

(** An accepted file becomes the selected file at once, and the handler
    returns with the busy flag cleared and exactly one toast, whatever the
    content.  The toast announces a success only when the name ends in the
    lower-case .csv, the content could be read and parsed; the columns and
    the rows are then those parsed, and the toast counts them.  In every
    other case (another accepted extension, .CSV in capitals, unreadable
    content, no line to take the headers from) the columns and the rows
    are left as they were. *)
Theorem upload_outcome (f : File) (content : res string) (st : State) :
  hasDataExtension (file_name f) = true ->
  let o := run (handleFileUpload (Some f) content) st in
  result o = Ok tt
  /\ file (final o) = Some f
  /\ isProcessing (final o) = false
  /\ noExternalCall (trace o)
  /\ exists t,
       trace o = [ShowToast t]
       /\ (toast_destructive t = false ->
           JS.endsWith (file_name f) ".csv" = true
           /\ exists text,
                content = Ok text
                /\ parseCSV text = Ok (columns (final o), parsedData (final o))
                /\ toast_description t =
                     "Parsed "
                     ++ JS.showN (N.of_nat (List.length (parsedData (final o))))
                     ++ " rows with "
                     ++ JS.showN (N.of_nat (List.length (columns (final o))))
                     ++ " columns")
       /\ (toast_destructive t = true ->
           columns (final o) = columns st
           /\ parsedData (final o) = parsedData st)
       /\ (JS.endsWith (file_name f) ".csv" = false ->
           forall text, content = Ok text ->
           toast_title t = "File format not yet supported").
Proof.
  intros H o. subst o. unfold handleFileUpload, noExternalCall. rewrite H.
  cbv beta iota delta [negb]. run_handler.
  destruct content as [text|e]; run_handler;
    [destruct (JS.endsWith (file_name f) ".csv"); run_handler;
     [destruct (parseCSV text) as [[headers data]|e] eqn:P; run_handler|]|];
    cbn [file isProcessing columns parsedData setFile setIsProcessing
         setColumns setParsedData forallb isExternalCall negb andb];
    (repeat split; try congruence);
    eexists; (split; [reflexivity|]);
    cbn [toast_destructive toast_description toast_title];
    repeat split; try congruence.
  exists text. repeat split. exact P.
Qed.

Lemma upload_outcome_witness :
  hasDataExtension "SALES.CSV" = true
  /\ toasts (trace (run (handleFileUpload (Some (mkFile "SALES.CSV" 9))
                           (Ok "x,y")) Examples.dataset))
     = [mkToast "File format not yet supported"
          "Currently only CSV files are supported. Excel and JSON support coming soon!"
          true].
Proof.
  split; [reflexivity|].
  pose proof (upload_outcome (mkFile "SALES.CSV" 9) (Ok "x,y")
                Examples.dataset eq_refl) as H.
  cbv zeta in H. destruct H as (_ & _ & _ & _ & t & Ht & _ & _ & Hu).
  rewrite Ht. cbn [toasts flat_map app]. f_equal.
  specialize (Hu eq_refl "x,y" eq_refl).
  injection Ht as <-. reflexivity.
Defined.

End DatasetUpload.

(** ** The rows parsed from a CSV text *)

Section CsvRows.
Import DatasetUploader DatasetFile.

Lemma filter_nil_iff {A} (f : A -> bool) (l : list A) :
  List.filter f l = [] <-> forall x, In x l -> f x = false.
Proof.
  induction l as [|a l IH]; cbn [List.filter In]; [tauto|].
  destruct (f a) eqn:F; split.
  - discriminate.
  - intros H. specialize (H a (or_introl eq_refl)). congruence.
  - intros H x [<-|Hx]; [exact F|]. apply IH; assumption.
  - intros H. apply IH. intros x Hx. apply H. right. exact Hx.
Qed.

Lemma endsWith_lower (s suf : string) :
  JS.endsWith s suf = true ->
  JS.endsWith (JS.toLowerCase s) (JS.toLowerCase suf) = true.
Proof.
  induction s as [|c s IH]; cbn [JS.endsWith JS.toLowerCase].
  - destruct (String.eqb_spec "" suf) as [<-|]; [reflexivity|discriminate].
  - destruct (String.eqb_spec (String c s) suf) as [<-|N].
    + intros _. cbn [JS.toLowerCase]. rewrite String.eqb_refl. reflexivity.
    + intros H. rewrite (IH H).
      destruct (String.eqb _ _); reflexivity.
Qed.

(** Parsing fails exactly on a text without a non-blank line, the empty
    text included; an upload of such a text under a .csv name ends in the
    parse-failure toast with the file selected and nothing parsed. *)
Theorem upload_blank_csv (f : File) (text : string) (st : State) :
  JS.endsWith (file_name f) ".csv" = true ->
  (parseCSV text = Raise UNDEFINED_SPLIT <->
   forall line, In line (split JS.LF text) -> JS.trim line = "")
  /\ parseCSV "" = Raise UNDEFINED_SPLIT
  /\ (parseCSV text = Raise UNDEFINED_SPLIT ->
      run (handleFileUpload (Some f) (Ok text)) st =
      (Ok tt,
       setIsProcessing false (setIsProcessing true (setFile (Some f) st)),
       [ShowToast (mkToast "Failed to parse file"
                     "Please check your file format and try again" true)])).
Proof.
  intros Hcsv. split; [|split; [reflexivity|]].
  - unfold parseCSV, nonBlankLines.
    destruct (List.filter _ _) as [|l0 ls] eqn:F.
    + split; [|reflexivity]. intros _ line Hl.
      apply (proj1 (filter_nil_iff _ _) F) in Hl.
      apply truthy_false, Hl.
    + split; [discriminate|]. intros H. exfalso.
      assert (Hin : In l0 (List.filter
                             (fun line => JS.truthy (JS.trim line))
                             (split JS.LF text)))
        by (rewrite F; left; reflexivity).
      apply filter_In in Hin as [Hin Ht].
      apply H in Hin. rewrite Hin in Ht. discriminate Ht.
  - intros P. unfold handleFileUpload.
    assert (Hd : hasDataExtension (file_name f) = true).
    { pose proof (endsWith_lower _ _ Hcsv) as Hl.
      change (JS.toLowerCase ".csv") with ".csv" in Hl.
      unfold hasDataExtension. cbv zeta. rewrite Hl. reflexivity. }
    rewrite Hd, Hcsv. cbv beta iota delta [negb]. run_handler.
    rewrite P. reflexivity.
Qed.

Lemma upload_blank_csv_witness :
  JS.endsWith (file_name (mkFile "empty.csv" 0)) ".csv" = true
  /\ toasts (trace (run (handleFileUpload (Some (mkFile "empty.csv" 0)) (Ok ""))
                        Examples.dataset))
     = [mkToast "Failed to parse file"
          "Please check your file format and try again" true].
Proof.
  split; [reflexivity|].
  pose proof (upload_blank_csv (mkFile "empty.csv" 0) "" Examples.dataset
                eq_refl) as H.
  destruct H as (_ & P & H). rewrite (H P). reflexivity.
Defined.

Lemma removeQuotes_no_quote (s : string) :
  JS.includes (removeQuotes s) JS.dq = false.
Proof.
  induction s as [|c s IH]; [reflexivity|].
  cbn [removeQuotes]. destruct (Ascii.eqb c JS.dquote) eqn:E; [exact IH|].
  cbn [JS.includes]. unfold JS.dq at 1. rewrite startsWith_cons.
  rewrite Ascii.eqb_sym, E. exact IH.
Qed.

Lemma cells_no_quote (line : string) :
  Forall (fun v => JS.includes v JS.dq = false) (cells line).
Proof.
  unfold cells. apply List.Forall_map, List.Forall_forall. intros v _.
  apply removeQuotes_no_quote.
Qed.

Lemma nth_no_quote (values : list string) (i : nat) :
  Forall (fun v => JS.includes v JS.dq = false) values ->
  JS.includes (nth i values "") JS.dq = false.
Proof.
  intros H. destruct (Nat.lt_ge_cases i (List.length values)) as [Hi|Hi].
  - rewrite List.Forall_forall in H. apply H, nth_In, Hi.
  - rewrite nth_overflow by exact Hi. reflexivity.
Qed.

(** The keys of a row: those it had, and the headers but [__proto__]. *)
Lemma assignCells_keys (headers : list string) (index : nat)
    (values : list string) (row : Row) (h : string) :
  is_Some (assignCells headers index values row !! h)
  <-> is_Some (row !! h) \/ (In h headers /\ h <> "__proto__").
Proof.
  revert index row. induction headers as [|a hs IH]; intros index row.
  - cbn [assignCells In]. tauto.
  - cbn [assignCells In]. rewrite IH. unfold setProperty.
    destruct (String.eqb_spec a "__proto__") as [->|Na].
    + intuition congruence.
    + rewrite lookup_insert_is_Some.
      destruct (String.eqb_spec a h) as [->|Nh]; intuition congruence.
Qed.

(** The values of a row: those it had, or values of the line. *)
Lemma assignCells_values (headers : list string) (index : nat)
    (values : list string) (row : Row) (h v : string) :
  assignCells headers index values row !! h = Some v ->
  row !! h = Some v \/ exists j, v = nth j values "".
Proof.
  revert index row. induction headers as [|a hs IH]; intros index row H.
  - left. exact H.
  - cbn [assignCells] in H. apply IH in H as [H|H]; [|right; exact H].
    unfold setProperty in H. destruct (String.eqb a "__proto__"); [left; exact H|].
    apply lookup_insert_Some in H as [[_ <-]|[_ H]]; [right; eauto|left; exact H].
Qed.

(** A parsed text gives one row per non-blank line after the first; every
    row has exactly the headers as keys (but a header [__proto__], which
    is never stored), a cell missing on a line being the empty string; and
    no header and no cell holds a double quote. *)
Theorem parseCSV_rows (text : string) (headers : list string) (data : list Row) :
  parseCSV text = Ok (headers, data) ->
  S (List.length data) = List.length (nonBlankLines text)
  /\ Forall (fun h => JS.includes h JS.dq = false) headers
  /\ Forall
       (fun row : Row =>
          (forall h, is_Some (row !! h) <-> In h headers /\ h <> "__proto__")
          /\ (forall h v, row !! h = Some v -> JS.includes v JS.dq = false))
       data.
Proof.
  unfold parseCSV. destruct (nonBlankLines text) as [|first rest]; [discriminate|].
  intros H. injection H as <- <-.
  split; [cbn [List.length]; rewrite length_map; reflexivity|].
  split; [apply cells_no_quote|].
  apply List.Forall_map, List.Forall_forall. intros line _. unfold parseRow. split.
  - intros h. rewrite assignCells_keys.
    assert (He : ~ is_Some ((∅ : Row) !! h)) by apply lookup_empty_is_Some.
    tauto.
  - intros h v Hv. apply assignCells_values in Hv as [Hv|[j ->]].
    + rewrite lookup_empty in Hv. discriminate Hv.
    + apply nth_no_quote, cells_no_quote.
Qed.

Lemma parseCSV_rows_witness :
  parseCSV ("x,y" ++ JS.nl ++ "Jan,10" ++ JS.nl ++ "Feb")
  = Ok (["x"; "y"],
        [ <["y" := "10"]> (<["x" := "Jan"]> ∅);
          <["y" := ""]> (<["x" := "Feb"]> ∅) ])
  /\ S (List.length
          [ <["y" := "10"]> (<["x" := "Jan"]> (∅ : Row));
            <["y" := ""]> (<["x" := "Feb"]> ∅) ])
     = List.length (nonBlankLines ("x,y" ++ JS.nl ++ "Jan,10" ++ JS.nl ++ "Feb")).
Proof.
  assert (P : parseCSV ("x,y" ++ JS.nl ++ "Jan,10" ++ JS.nl ++ "Feb")
              = Ok (["x"; "y"],
                    [ <["y" := "10"]> (<["x" := "Jan"]> ∅);
                      <["y" := ""]> (<["x" := "Feb"]> ∅) ]))
    by reflexivity.
  split; [exact P|].
  apply (parseCSV_rows _ _ _ P).
Defined.

End CsvRows.

(** ** Reading back a table written as CSV *)

Section CsvRoundTrip.
Import DatasetUploader DatasetFile CsvText.

Lemma split_free (sep : ascii) (x : string) :
  freeOf sep x = true -> split sep x = [x].
Proof.
  induction x as [|c x IH]; [reflexivity|].
  cbn [freeOf split]. intros H. apply andb_prop in H as [Hc Hx].
  destruct (Ascii.eqb c sep); [discriminate Hc|].
  rewrite (IH Hx). reflexivity.
Qed.

Lemma split_app (sep : ascii) (x rest : string) :
  freeOf sep x = true ->
  split sep (x ++ String sep rest) = x :: split sep rest.
Proof.
  induction x as [|c x IH]; intros H.
  - rewrite append_nil. cbn [split]. rewrite Ascii.eqb_refl. reflexivity.
  - cbn [freeOf] in H. apply andb_prop in H as [Hc Hx].
    rewrite append_cons. cbn [split].
    destruct (Ascii.eqb c sep); [discriminate Hc|].
    rewrite (IH Hx). reflexivity.
Qed.

(** Splitting what was joined gives the pieces back. *)
Lemma split_join (sep : ascii) (l : list string) :
  l <> [] -> Forall (fun x => freeOf sep x = true) l ->
  split sep (joinWith (String sep "") l) = l.
Proof.
  induction l as [|x l IH]; [congruence|]. intros _ H.
  inversion H as [|? ? Hx Hl]; subst.
  destruct l as [|y l].
  - apply split_free, Hx.
  - change (joinWith (String sep "") (x :: y :: l))
      with (x ++ String sep (joinWith (String sep "") (y :: l))).
    rewrite (split_app _ _ _ Hx). f_equal. apply IH; [discriminate|exact Hl].
Qed.

Lemma freeOf_app (a : ascii) (x y : string) :
  freeOf a (x ++ y) = (freeOf a x && freeOf a y)%bool.
Proof.
  induction x as [|c x IH]; [reflexivity|].
  rewrite append_cons. cbn [freeOf]. rewrite IH, andb_assoc. reflexivity.
Qed.

Lemma freeOf_join (a : ascii) (sep : string) (l : list string) :
  freeOf a sep = true -> Forall (fun x => freeOf a x = true) l ->
  freeOf a (joinWith sep l) = true.
Proof.
  intros Hs H. induction H as [|x l Hx Hl IH]; [reflexivity|].
  destruct l as [|y l]; [exact Hx|].
  change (joinWith sep (x :: y :: l)) with (x ++ sep ++ joinWith sep (y :: l)).
  rewrite !freeOf_app, Hx, Hs, IH. reflexivity.
Qed.

Lemma removeQuotes_free (c : string) :
  freeOf JS.dquote c = true -> removeQuotes c = c.
Proof.
  induction c as [|a c IH]; [reflexivity|].
  cbn [freeOf removeQuotes]. intros H. apply andb_prop in H as [Ha Hc].
  destruct (Ascii.eqb a JS.dquote); [discriminate Ha|].
  rewrite (IH Hc). reflexivity.
Qed.

Lemma plain_parts (c : string) :
  plain c = true ->
  freeOf "," c = true /\ freeOf JS.LF c = true /\ cleanCell c = c.
Proof.
  unfold plain, cleanCell. intros H.
  apply andb_prop in H as [H Ht]. apply andb_prop in H as [H Hq].
  apply andb_prop in H as [Hc Hl].
  apply String.eqb_eq in Ht. rewrite Ht.
  repeat split; try assumption. apply removeQuotes_free, Hq.
Qed.

(** The cells of a written row are the row. *)
Lemma cells_join (r : list string) :
  r <> [] -> Forall (fun c => plain c = true) r -> cells (joinWith "," r) = r.
Proof.
  intros Hne H. unfold cells. rewrite split_join; [|exact Hne|].
  - induction H as [|c r Hc Hr IH]; [reflexivity|].
    cbn [List.map]. rewrite (proj2 (proj2 (plain_parts c Hc))).
    f_equal. destruct r; [reflexivity|]. apply IH. discriminate.
  - eapply List.Forall_impl; [|exact H]. intros c Hc. apply (plain_parts c Hc).
Qed.

Lemma filter_all {A} (f : A -> bool) (l : list A) :
  Forall (fun x => f x = true) l -> List.filter f l = l.
Proof.
  intros H. induction H as [|x l Hx Hl IH]; [reflexivity|].
  cbn [List.filter]. rewrite Hx, IH. reflexivity.
Qed.

(** With distinct headers a row built from a line holds, under each
    header, the value at the header's position. *)
Lemma assignCells_lookup (headers : list string) (index : nat)
    (values : list string) (row : Row) (i : nat) (h : string) :
  List.NoDup headers -> ~ In "__proto__" headers ->
  nth_error headers i = Some h ->
  assignCells headers index values row !! h
  = Some (nth (index + i) values "").
Proof.
  revert index row i.
  induction headers as [|a hs IH]; intros index row i Hnd Hp Hi.
  - destruct i; discriminate Hi.
  - inversion Hnd as [|? ? Ha Hnd']; subst. cbn [assignCells].
    assert (Hp' : ~ In "__proto__" hs) by (intros F; apply Hp; right; exact F).
    destruct i as [|i]; cbn [nth_error] in Hi.
    + injection Hi as ->.
      assert (Hk : forall m, assignCells hs (S index) values m !! h = m !! h).
      { clear IH Hnd Hnd' Hp Hp'. generalize (S index).
        induction hs as [|b hs IHh]; intros n m; [reflexivity|].
        cbn [assignCells]. rewrite IHh.
        - unfold setProperty. destruct (String.eqb b "__proto__"); [reflexivity|].
          apply lookup_insert_ne. intros ->. apply Ha. left. reflexivity.
        - intros F. apply Ha. right. exact F. }
      rewrite Hk. unfold setProperty.
      destruct (String.eqb_spec h "__proto__") as [->|_].
      * exfalso. apply Hp. left. reflexivity.
      * rewrite lookup_insert_eq, Nat.add_0_r. reflexivity.
    + rewrite (IH (S index) _ i Hnd' Hp' Hi).
      rewrite Nat.add_succ_r. reflexivity.
Qed.

(** A table of plain cells with distinct headers, none of them
    [__proto__], written one row per line with commas between the cells, is
    read back as it was, provided no line is blank: the headers are the
    first row, there is one parsed row per further row, in order, and each
    holds under every header the cell at the header's position (the empty
    string where the row is short). *)
Theorem parseCSV_reads_back (headers : list string) (rows : list (list string)) :
  Forall (Forall (fun c => plain c = true)) (headers :: rows) ->
  Forall (fun r => JS.trim (joinWith "," r) <> "") (headers :: rows) ->
  List.NoDup headers -> ~ In "__proto__" headers ->
  exists data,
    parseCSV (toCSV (headers :: rows)) = Ok (headers, data)
    /\ List.length data = List.length rows
    /\ forall k r row i h,
         nth_error rows k = Some r -> nth_error data k = Some row ->
         nth_error headers i = Some h ->
         row !! h = Some (nth i r "").
Proof.
  intros Hplain Hblank Hnd Hp.
  assert (Hne : Forall (fun r : list string => r <> []) (headers :: rows)).
  { eapply List.Forall_impl; [|exact Hblank]. intros r Hr ->. apply Hr. reflexivity. }
  assert (Hcells : Forall (fun r => cells (joinWith "," r) = r) (headers :: rows)).
  { apply List.Forall_forall. intros r Hr.
    rewrite List.Forall_forall in Hne, Hplain.
    apply cells_join; [apply Hne, Hr|apply Hplain, Hr]. }
  assert (Hlines : nonBlankLines (toCSV (headers :: rows))
                   = List.map (joinWith ",") (headers :: rows)).
  { unfold nonBlankLines, toCSV.
    change JS.nl with (String JS.LF "").
    rewrite split_join.
    - apply filter_all, List.Forall_map.
      eapply List.Forall_impl; [|exact Hblank].
      intros r Hr. apply truthy_true, Hr.
    - discriminate.
    - apply List.Forall_map, List.Forall_forall. intros r Hr.
      rewrite List.Forall_forall in Hplain.
      apply freeOf_join; [reflexivity|].
      eapply List.Forall_impl; [|exact (Hplain r Hr)].
      intros c Hc. apply (plain_parts c Hc). }
  unfold parseCSV. rewrite Hlines. cbn [List.map].
  inversion Hcells as [|? ? Hh Hr]; subst. rewrite Hh.
  eexists. split; [reflexivity|]. split; [rewrite !length_map; reflexivity|].
  intros k r row i h Hk Hrow Hi.
  rewrite List.map_map, nth_error_map, Hk in Hrow. cbn in Hrow.
  injection Hrow as <-. unfold parseRow.
  rewrite List.Forall_forall in Hr.
  rewrite (Hr r (nth_error_In _ _ Hk)).
  apply (assignCells_lookup headers 0 r ∅ i h Hnd Hp Hi).
Qed.

Lemma parseCSV_reads_back_witness :
  Forall (Forall (fun c => plain c = true)) [["x"; "y"]; ["Jan"; "10"]]
  /\ exists data,
       parseCSV (toCSV [["x"; "y"]; ["Jan"; "10"]]) = Ok (["x"; "y"], data)
       /\ List.length data = 1%nat.
Proof.
  assert (H1 : Forall (Forall (fun c => plain c = true))
                 [["x"; "y"]; ["Jan"; "10"]])
    by (repeat constructor).
  assert (H2 : Forall (fun r => JS.trim (joinWith "," r) <> "")
                 [["x"; "y"]; ["Jan"; "10"]])
    by (repeat constructor; discriminate).
  assert (H3 : List.NoDup ["x"; "y"]).
  { constructor; [intros [F|[]]; discriminate F|].
    constructor; [intros []|constructor]. }
  assert (H4 : ~ In "__proto__" ["x"; "y"])
    by (intros [F|[F|[]]]; discriminate F).
  split; [exact H1|].
  destruct (parseCSV_reads_back ["x"; "y"] [["Jan"; "10"]] H1 H2 H3 H4)
    as (data & P & L & _).
  exists data. split; [exact P|exact L].
Defined.

End CsvRoundTrip.

(** ** Parsed rows as chart points *)

Section ChartPoints.
Import DatasetUploader DatasetFile.

(** For rows parsed from a CSV text and an x column (and a label column,
    if any) chosen among its headers and not named [__proto__], the
    reduction gives one point per row, in order, and no point has an
    undefined x, an undefined label or a y that is not a number. *)
Theorem parsed_rows_give_defined_points
    (text : string) (headers : list string) (data : list Row) (sel : Columns) :
  parseCSV text = Ok (headers, data) ->
  In (col_x sel) headers -> col_x sel <> "__proto__" ->
  col_label sel = ""
  \/ (In (col_label sel) headers /\ col_label sel <> "__proto__") ->
  chartData sel data = List.map (toPoint sel) data
  /\ List.length (chartData sel data) = List.length data
  /\ Forall (fun p => is_Some (x p) /\ is_Some (label p)
                      /\ Num.isNaN (y p) = false)
            (chartData sel data).
Proof.
  intros P Hx Hxp Hl.
  assert (Hrows : Forall (fun row : Row =>
                            forall h, is_Some (row !! h)
                                      <-> In h headers /\ h <> "__proto__")
                         data).
  { unfold parseCSV in P.
    destruct (nonBlankLines text) as [|first rest]; [discriminate P|].
    injection P as <- <-.
    apply List.Forall_map, List.Forall_forall. intros line _ h.
    unfold parseRow. rewrite assignCells_keys.
    assert (He : ~ is_Some ((∅ : Row) !! h)) by apply lookup_empty_is_Some.
    tauto. }
  rewrite chartData_map. split; [reflexivity|].
  split; [apply length_map|].
  apply List.Forall_map. eapply List.Forall_impl; [|exact Hrows].
  intros row Hk. unfold toPoint. cbn [x y label].
  split; [apply Hk; tauto|]. split; [|apply or_zero_not_NaN].
  destruct Hl as [->|Hl]; [apply Hk; tauto|].
  destruct (JS.truthy (col_label sel)); apply Hk; tauto.
Qed.

Lemma parsed_rows_give_defined_points_witness :
  parseCSV ("x,y" ++ JS.nl ++ "Jan,10" ++ JS.nl ++ "Feb,bad")
  = Ok (["x"; "y"],
        [ <["y" := "10"]> (<["x" := "Jan"]> ∅);
          <["y" := "bad"]> (<["x" := "Feb"]> ∅) ])
  /\ List.length
       (chartData Examples.xy
          [ <["y" := "10"]> (<["x" := "Jan"]> (∅ : Row));
            <["y" := "bad"]> (<["x" := "Feb"]> ∅) ]) = 2%nat.
Proof.
  assert (P : parseCSV ("x,y" ++ JS.nl ++ "Jan,10" ++ JS.nl ++ "Feb,bad")
              = Ok (["x"; "y"],
                    [ <["y" := "10"]> (<["x" := "Jan"]> ∅);
                      <["y" := "bad"]> (<["x" := "Feb"]> ∅) ]))
    by reflexivity.
  split; [exact P|].
  assert (Hp : col_x Examples.xy <> "__proto__") by discriminate.
  apply (parsed_rows_give_defined_points _ _ _ Examples.xy P
           (or_introl eq_refl) Hp (or_introl eq_refl)).
Defined.

End ChartPoints.

(** ** Selecting a document *)

Section DocumentSelection.
Import PDFProcessor.

(** A file whose lower-cased name ends in .pdf and whose size is at most
    10485760 bytes becomes the selected file without a toast or a call;
    the extracted text, the mind map and the progress of an earlier run
    are reset.  With no file in the event nothing changes. *)
Theorem file_selection_accepted_resets (f : File) (st : State) :
  JS.endsWith (JS.toLowerCase (file_name f)) ".pdf" = true ->
  (file_size f <= 10485760)%N ->
  run (handleFileUpload (Some f)) st
  = (Ok tt,
     mkState (Some f) (isProcessing st) 0 "" None (processingStep st), [])
  /\ run (handleFileUpload None) st = (Ok tt, st, []).
Proof.
  intros Hn Hs. unfold handleFileUpload. rewrite Hn.
  assert (Hb : (MAX_SIZE <? file_size f)%N = false)
    by (apply N.ltb_ge; exact Hs).
  rewrite Hb. cbv beta iota delta [negb]. run_handler.
  split; reflexivity.
Qed.

Lemma file_selection_accepted_resets_witness :
  JS.endsWith (JS.toLowerCase (file_name (mkFile "Paper.PDF" 10485760))) ".pdf"
  = true
  /\ final (run (handleFileUpload (Some (mkFile "Paper.PDF" 10485760)))
                (mkState (Some Examples.pdf) false 70 "old text"
                         (Some Examples.rec2) "step"))
     = mkState (Some (mkFile "Paper.PDF" 10485760)) false 0 "" None "step".
Proof.
  split; [reflexivity|].
  assert (Hs : (file_size (mkFile "Paper.PDF" 10485760) <= 10485760)%N)
    by (cbn; lia).
  destruct (file_selection_accepted_resets (mkFile "Paper.PDF" 10485760)
              (mkState (Some Examples.pdf) false 70 "old text"
                       (Some Examples.rec2) "step") eq_refl Hs) as [H _].
  rewrite H. reflexivity.
Defined.

End DocumentSelection.

(** ** Loading, deleting and searching the history *)

Section HistoryMore.
Import DiagramHistory.

(** [loadDiagrams] returns with the loading flag cleared whatever the
    collaborators do, and touches neither the filters nor the selection.
    When both calls succeed the loaded set is the list the store returned
    for that user (asked for with a limit of 50) and nothing is shown;
    when either fails the loaded set stays as it was and one destructive
    toast is shown, the store not being asked when the auth call failed. *)
Theorem loadDiagrams_outcome (env : Env) (st : State) :
  let o := run (loadDiagrams env) st in
  result o = Ok tt
  /\ final o = setIsLoading false (setDiagrams (diagrams (final o)) st)
  /\ match auth_me env with
     | Ok user =>
         match db_list env (user_id user) with
         | Ok listed =>
             diagrams (final o) = listed
             /\ trace o = [AuthMe; DbList (user_id user) 50]
         | Raise _ =>
             diagrams (final o) = diagrams st
             /\ trace o = [AuthMe; DbList (user_id user) 50;
                           ShowToast (mkToast "Failed to load diagrams"
                                        "Please try refreshing the page" true)]
         end
     | Raise _ =>
         diagrams (final o) = diagrams st
         /\ trace o = [AuthMe;
                       ShowToast (mkToast "Failed to load diagrams"
                                    "Please try refreshing the page" true)]
     end.
Proof.
  intros o. subst o. unfold loadDiagrams. run_handler.
  destruct (auth_me env) as [user|e0]; run_handler;
    [destruct (db_list env (user_id user)) as [listed|e1]; run_handler|];
    destruct st; repeat split.
Qed.

(** A delete that is declined, or that the store rejects, changes nothing:
    the loaded set and the selection stay; when declined the store is not
    called and nothing is shown, when rejected one destructive toast is
    shown. *)
Theorem delete_declined_or_rejected
    (env : Env) (st : State) (diagramId : string) :
  window_confirm env CONFIRM_DELETE = false
  \/ (exists e, db_delete env diagramId = Raise e) ->
  let o := run (handleDeleteDiagram env diagramId) st in
  result o = Ok tt
  /\ final o = st
  /\ (window_confirm env CONFIRM_DELETE = false ->
      trace o = [Confirm CONFIRM_DELETE])
  /\ (window_confirm env CONFIRM_DELETE = true ->
      trace o = [Confirm CONFIRM_DELETE; DbDelete diagramId;
                 ShowToast (mkToast "Failed to delete diagram"
                              "Please try again" true)]).
Proof.
  intros H o. subst o. unfold handleDeleteDiagram. run_handler.
  destruct (window_confirm env CONFIRM_DELETE) eqn:C;
    cbv beta iota delta [negb]; run_handler.
  - destruct H as [H|[e H]]; [discriminate H|]. rewrite H. run_handler.
    repeat split. discriminate.
  - repeat split. discriminate.
Qed.

Lemma delete_declined_or_rejected_witness :
  window_confirm
    (mkEnv (Ok Examples.alice) (fun _ _ => Ok "") (fun _ => Ok tt)
       (fun _ => Ok tt) (fun _ => Ok []) (fun _ _ => Ok "") (fun _ => Ok "")
       (fun _ => false) 0 "") CONFIRM_DELETE = false
  /\ final (run (handleDeleteDiagram
                   (mkEnv (Ok Examples.alice) (fun _ _ => Ok "") (fun _ => Ok tt)
                      (fun _ => Ok tt) (fun _ => Ok []) (fun _ _ => Ok "")
                      (fun _ => Ok "") (fun _ => false) 0 "")
                   "diagram_1") Examples.history) = Examples.history.
Proof.
  split; [reflexivity|].
  apply (delete_declined_or_rejected
           (mkEnv (Ok Examples.alice) (fun _ _ => Ok "") (fun _ => Ok tt)
              (fun _ => Ok tt) (fun _ => Ok []) (fun _ _ => Ok "")
              (fun _ => Ok "") (fun _ => false) 0 "")
           Examples.history "diagram_1" (or_introl eq_refl)).
Defined.



Lemma lowerChar_idempotent (c : ascii) :
  JS.lowerChar (JS.lowerChar c) = JS.lowerChar c.
Proof. destruct c as [[] [] [] [] [] [] [] []]; reflexivity. Qed.

Lemma toLowerCase_idempotent (s : string) :
  JS.toLowerCase (JS.toLowerCase s) = JS.toLowerCase s.
Proof.
  induction s as [|c s IH]; [reflexivity|].
  cbn [JS.toLowerCase]. rewrite lowerChar_idempotent, IH. reflexivity.
Qed.

Lemma toLowerCase_truthy (s : string) :
  JS.truthy (JS.toLowerCase s) = JS.truthy s.
Proof. destruct s; reflexivity. Qed.

Lemma filter_twice {A} (f : A -> bool) (l : list A) :
  List.filter f (List.filter f l) = List.filter f l.
Proof.
  induction l as [|a l IH]; [reflexivity|].
  cbn [List.filter]. destruct (f a) eqn:F; [|exact IH].
  cbn [List.filter]. rewrite F, IH. reflexivity.
Qed.

Lemma filter_both {A} (f g : A -> bool) (l : list A) :
  List.filter f (List.filter g l) = List.filter (fun x => g x && f x) l.
Proof.
  induction l as [|a l IH]; [reflexivity|].
  cbn [List.filter]. destruct (g a); cbn [List.filter andb];
    [destruct (f a)|]; rewrite IH; reflexivity.
Qed.

(** The search ignores the case of the term: two terms that differ only in
    case, and a term and its lower-cased form, select the same records.
    Each filter is idempotent, the empty term and the selector "all" keep
    every record, and the filtered list keeps the order of the loaded
    set. *)
Theorem search_ignores_case (T T' K : string) (l : list Diagram.t) :
  (JS.toLowerCase T = JS.toLowerCase T' -> filterByTerm T l = filterByTerm T' l)
  /\ filterByTerm (JS.toLowerCase T) l = filterByTerm T l
  /\ filterByTerm T (filterByTerm T l) = filterByTerm T l
  /\ filterByType K (filterByType K l) = filterByType K l
  /\ filterByTerm "" l = l
  /\ filterByType "all" l = l
  /\ exists keep : Diagram.t -> bool,
       filterByType K (filterByTerm T l) = List.filter keep l.
Proof.
  assert (Q : forall A B : string,
             JS.toLowerCase A = JS.toLowerCase B ->
             filterByTerm A l = filterByTerm B l).
  { intros A B E. unfold filterByTerm.
    rewrite <- (toLowerCase_truthy A), <- (toLowerCase_truthy B), E.
    destruct (JS.truthy (JS.toLowerCase B)); [|reflexivity].
    apply filter_ext. intros d. unfold matchesTerm. rewrite E. reflexivity. }
  split; [apply Q|]. split; [apply Q, toLowerCase_idempotent|].
  split; [unfold filterByTerm; destruct (JS.truthy T);
          [apply filter_twice|reflexivity]|].
  split; [unfold filterByType; destruct (negb (String.eqb K "all"));
          [apply filter_twice|reflexivity]|].
  split; [reflexivity|]. split; [reflexivity|].
  unfold filterByType, filterByTerm.
  destruct (negb (String.eqb K "all")), (JS.truthy T).
  - eexists. apply filter_both.
  - eexists. reflexivity.
  - eexists. reflexivity.
  - exists (fun _ => true). symmetry. apply filter_all.
    apply List.Forall_forall. reflexivity.
Qed.

End HistoryMore.

(** ** Zoom limits and re-rendering *)

Section ViewerMore.
Import DiagramViewer ZoomReach.

Lemma fold_repeat_fixed (op : ZoomOp) (z : float) (k : nat) :
  step op z = z -> fold_left (fun z op => step op z) (repeat op k) z = z.
Proof.
  intros H. induction k as [|k IH]; [reflexivity|].
  cbn [repeat fold_left]. rewrite H. exact IH.
Qed.

Lemma reach_saturates (z : float) :
  In z REACH ->
  fold_left (fun z op => step op z) (repeat ZoomIn 13) z = 3%float
  /\ fold_left (fun z op => step op z) (repeat ZoomOut 13) z = 0.5%float.
Proof. intros H. each_reach H; vm_compute; split; reflexivity. Qed.

(** From wherever the controls have led, thirteen clicks on zoom-in reach
    the upper limit 3 and thirteen on zoom-out the lower limit 0.5, and
    further clicks in the same direction stay there. *)
Theorem zoom_limits_are_reached (ops : list ZoomOp) (k : nat) :
  zoomAfter (ops ++ repeat ZoomIn (13 + k)) = 3%float
  /\ zoomAfter (ops ++ repeat ZoomOut (13 + k)) = 0.5%float.
Proof.
  rewrite !zoomAfter_fold, !repeat_app, !fold_left_app.
  rewrite <- zoomAfter_fold.
  destruct (reach_saturates _ (zoomAfter_reach ops)) as [Hi Ho].
  rewrite Hi, Ho. split; apply fold_repeat_fixed; reflexivity.
Qed.



End ViewerMore.

(** ** The authentication state of the application *)

Section AppState.
Import App.

Lemma after_snoc (states : list AuthState) (state : AuthState) :
  after (states ++ [state]) = onAuthStateChanged state (after states).
Proof. unfold after. rewrite fold_left_app. reflexivity. Qed.

Lemma lastError_snoc (states : list AuthState) (state : AuthState) :
  lastError (states ++ [state])
  = match auth_error state with
    | Some e => Some e
    | None => lastError states
    end.
Proof.
  induction states as [|s states IH]; cbn [app lastError].
  - destruct (auth_error state); reflexivity.
  - rewrite IH. destruct (auth_error state); reflexivity.
Qed.

Lemma after_error (states : list AuthState) :
  error (after states) = lastError states.
Proof.
  induction states as [|state states IH] using rev_ind; [reflexivity|].
  rewrite after_snoc, lastError_snoc. unfold onAuthStateChanged.
  destruct (auth_error state); [reflexivity|exact IH].
Qed.

(** After any sequence of authentication states, the user and the loading
    flag are those of the latest state, and the error is that of the
    latest state that carried one: a state without an error never clears
    it.  The main screen is shown exactly when the latest state is not
    loading and has a user; the error is shown only on the loading
    screen. *)
Theorem auth_state_follows_latest
    (states : list AuthState) (state : AuthState) (u : User) :
  let s := after (states ++ [state]) in
  user s = auth_user state
  /\ loading s = auth_isLoading state
  /\ error s = lastError (states ++ [state])
  /\ (auth_error state = None -> error s = error (after states))
  /\ (screen s = Main u <->
      auth_isLoading state = false /\ auth_user state = Some u)
  /\ (screen s = SignIn <->
      auth_isLoading state = false /\ auth_user state = None)
  /\ (forall e, screen s = Loading e ->
      auth_isLoading state = true /\ e = lastError (states ++ [state])).
Proof.
  intros s. subst s.
  pose proof (after_error (states ++ [state])) as E.
  rewrite after_snoc in *. unfold onAuthStateChanged in *.
  unfold screen.
  destruct (auth_error state) as [e|] eqn:Ee; cbn [user loading error] in *;
    (split; [reflexivity|]); (split; [reflexivity|]);
    (split; [exact E|]); (split; [congruence|]);
    destruct (auth_isLoading state), (auth_user state) as [u'|];
    repeat split; try congruence; try (intros [? ?]; congruence);
    try (intros e' He'; injection He' as <-; split; [reflexivity|exact E]).
Qed.

End AppState.

(** ** The backend test function *)

Section BackendTest.
Import Backend.

(** The handler answers every request but one: when the store rejects with
    null or undefined, reading the message of the error throws inside the
    catch clause and the handler is rejected without a response.  Every
    response has status 200 or 500 and the header that allows every origin.
    A preflight request gets an empty 200 response whatever the store would
    do; any other request gets 500 exactly when listing the records is
    rejected with another value, with the message of that value, and 200
    with the number of records listed otherwise. *)
Theorem backend_answers_unless_nullish
    (req : Request) (listed : Listing) (now : string) :
  (handler req listed now = None <->
   method req <> "OPTIONS" /\ listed = Rejected Nullish)
  /\ forall r, handler req listed now = Some r ->
       header "Access-Control-Allow-Origin" (headers r) = Some "*"
       /\ (status r = 200%nat \/ status r = 500%nat)
       /\ (status r = 500%nat <->
           method req <> "OPTIONS" /\ exists message, listed = Rejected (Value message))
       /\ (method req = "OPTIONS" ->
           body r = None /\ forall listed', handler req listed' now = Some r)
       /\ (method req <> "OPTIONS" ->
           header "Content-Type" (headers r) = Some "application/json"
           /\ match listed with
              | Listed testQuery =>
                  body r = Some (Success now (List.length testQuery))
              | Rejected (Value message) =>
                  body r = Some (Failure message now)
              | Rejected Nullish => False
              end).
Proof.
  unfold handler.
  destruct (String.eqb_spec (method req) "OPTIONS") as [E|E].
  - split; [split; [discriminate|intros [N _]; contradiction]|].
    intros r [= <-]. cbn [status headers body].
    split; [reflexivity|]. split; [left; reflexivity|].
    split; [split; [discriminate|intros [N _]; contradiction]|].
    split; [intros _; split; [reflexivity|]|intros N; contradiction].
    intros listed'. reflexivity.
  - destruct listed as [l|[|message]].
    + split; [split; [discriminate|intros [_ F]; discriminate F]|].
      intros r [= <-]. cbn [status headers body].
      split; [reflexivity|]. split; [left; reflexivity|].
      split; [split; [discriminate|intros [_ [m F]]; discriminate F]|].
      split; [intros F; contradiction|intros _; split; reflexivity].
    + split; [split; [intros _; split; [exact E|reflexivity]|reflexivity]|].
      intros r F. discriminate F.
    + split; [split; [discriminate|intros [_ F]; discriminate F]|].
      intros r [= <-]. cbn [status headers body].
      split; [reflexivity|]. split; [right; reflexivity|].
      split; [split; [intros _; split; [exact E|exists message; reflexivity]
                     |reflexivity]|].
      split; [intros F; contradiction|intros _; split; reflexivity].
Qed.

End BackendTest.

(** ** The order of the calls *)

Section CallOrder.

(** In the document flow each collaborator is called once, in the order
    auth, upload, extraction, completion, store, and only after the one
    before it succeeded: the first failure (or an extracted text of
    trimmed length below 100) ends the calls, and its message is what the
    failure toast shows. *)
Theorem document_flow_stops_at_first_failure
    (env : Env) (st : PDFProcessor.State) (f : File) :
  PDFProcessor.file st = Some f ->
  let o := run (PDFProcessor.handleProcessPDF env) st in
  let path := "pdfs/" ++ file_name f in
  let failed e := [mkToast "PDF processing failed"
                     (PDFProcessor.failureDescription e) true] in
  match auth_me env with
  | Raise e => externalCalls (trace o) = [AuthMe] /\ toasts (trace o) = failed e
  | Ok user =>
      match storage_upload env f path with
      | Raise e =>
          externalCalls (trace o) = [AuthMe; StorageUpload f path]
          /\ toasts (trace o) = failed e
      | Ok url =>
          match data_extractFromUrl env url with
          | Raise e =>
              externalCalls (trace o)
              = [AuthMe; StorageUpload f path; ExtractFromUrl url]
              /\ toasts (trace o) = failed e
          | Ok text =>
              if (String.length (JS.trim text) <? 100)%nat then
                externalCalls (trace o)
                = [AuthMe; StorageUpload f path; ExtractFromUrl url]
                /\ toasts (trace o)
                   = failed (ErrorObj PDFProcessor.INSUFFICIENT_TEXT)
              else
                let instruction := PDFProcessor.mindMapPrompt text in
                match ai_generateText env instruction "gpt-4o-mini" with
                | Raise e =>
                    externalCalls (trace o)
                    = [AuthMe; StorageUpload f path; ExtractFromUrl url;
                       GenerateText instruction "gpt-4o-mini"]
                    /\ toasts (trace o) = failed e
                | Ok code =>
                    let d := PDFProcessor.mindMapData env user f url text code in
                    externalCalls (trace o)
                    = [AuthMe; StorageUpload f path; ExtractFromUrl url;
                       GenerateText instruction "gpt-4o-mini"; DbCreate d]
                    /\ match db_create env d with
                       | Raise e => toasts (trace o) = failed e
                       | Ok _ =>
                           toasts (trace o)
                           = [mkToast "PDF processed successfully!"
                                "Your mind map has been generated from the PDF content"
                                false]
                       end
                end
          end
      end
  end.
Proof.
  intros Hf o path failed. subst o path failed.
  unfold PDFProcessor.handleProcessPDF. run_handler. rewrite Hf. run_handler.
  destruct (auth_me env) as [user|e0]; run_handler; [|split; reflexivity].
  destruct (storage_upload env f ("pdfs/" ++ file_name f)) as [url|e1];
    run_handler; [|split; reflexivity].
  destruct (data_extractFromUrl env url) as [text|e2];
    run_handler; [|split; reflexivity].
  destruct (String.length (JS.trim text) <? 100)%nat eqn:L.
  - rewrite orb_true_r. run_handler. split; reflexivity.
  - assert (Ht : JS.truthy text = true).
    { destruct text; [discriminate L|reflexivity]. }
    rewrite Ht. cbv beta iota delta [negb orb]. run_handler.
    destruct (ai_generateText env (PDFProcessor.mindMapPrompt text) "gpt-4o-mini")
      as [code|e3]; run_handler; [|split; reflexivity].
    destruct (db_create env _) as [[]|e4]; run_handler; split; reflexivity.
Qed.

Lemma document_flow_stops_at_first_failure_witness :
  PDFProcessor.file Examples.pdfSelected = Some Examples.pdf
  /\ externalCalls
       (trace (run (PDFProcessor.handleProcessPDF
                      (Examples.env_ok Examples.fifty)) Examples.pdfSelected))
     = [AuthMe; StorageUpload Examples.pdf "pdfs/paper.pdf";
        ExtractFromUrl "https://storage/paper.pdf"].
Proof.
  split; [reflexivity|].
  pose proof (document_flow_stops_at_first_failure
                (Examples.env_ok Examples.fifty) Examples.pdfSelected
                Examples.pdf eq_refl) as H.
  cbv zeta in H. cbn [auth_me storage_upload data_extractFromUrl
                      Examples.env_ok file_name Examples.pdf] in H.
  change (String.length (JS.trim Examples.fifty) <? 100)%nat with true in H.
  cbv iota in H. destruct H as [H _]. exact H.
Defined.

(** In the prompt flow a request with a prompt that is not blank and a
    kind of the selector calls auth first; when auth fails
    nothing else is called, and when it succeeds the completion service
    and then the store are each called exactly once: the store is asked
    also after a failed completion, with the fallback description. *)
Theorem prompt_flow_calls (env : Env) (st : TextPromptGenerator.State) :
  JS.trim (TextPromptGenerator.prompt st) <> "" ->
  In (TextPromptGenerator.diagramType st) TextPromptGenerator.DIAGRAM_TYPES ->
  let o := run (TextPromptGenerator.handleGenerate env) st in
  let p := TextPromptGenerator.prompt st in
  let k := TextPromptGenerator.diagramType st in
  let instruction := TextPromptGenerator.promptToUse p k in
  match auth_me env with
  | Raise _ =>
      externalCalls (trace o) = [AuthMe]
      /\ toasts (trace o) = [mkToast "Generation failed"
                               "Please try again with a different prompt" true]
  | Ok user =>
      let raw := match ai_generateText env instruction "gpt-4o-mini" with
                 | Ok text => JS.trim text
                 | Raise _ => TextPromptGenerator.fallbackCode p k
                 end in
      externalCalls (trace o)
      = [AuthMe; GenerateText instruction "gpt-4o-mini";
         DbCreate (TextPromptGenerator.diagramData env user p k
                     (TextPromptGenerator.cleanUp raw))]
  end.
Proof.
  intros Hp Hk o p k instruction. subst o p k instruction.
  assert (Hk' : TextPromptGenerator.diagramType st <> "").
  { apply enumeration_kinds_present, in_or_app. left. exact Hk. }
  clear Hk. rename Hk' into Hk.
  unfold TextPromptGenerator.handleGenerate. run_handler.
  apply truthy_true in Hp, Hk. rewrite Hp, Hk.
  cbv beta iota delta [negb]. run_handler.
  destruct (auth_me env) as [user|e0]; run_handler; [|split; reflexivity].
  rewrite generateCode_run. run_handler.
  destruct (db_create env _) as [[]|e1]; reflexivity.
Qed.

Lemma prompt_flow_calls_witness :
  JS.trim (TextPromptGenerator.prompt Examples.photosynthesis) <> ""
  /\ List.length
       (externalCalls
          (trace (run (TextPromptGenerator.handleGenerate
                         (Examples.env_ai_down "")) Examples.photosynthesis)))
     = 3%nat.
Proof.
  assert (Hp : JS.trim (TextPromptGenerator.prompt Examples.photosynthesis) <> "")
    by (vm_compute; discriminate).
  assert (Hk : In (TextPromptGenerator.diagramType Examples.photosynthesis)
                  TextPromptGenerator.DIAGRAM_TYPES)
    by (left; reflexivity).
  split; [exact Hp|].
  pose proof (prompt_flow_calls (Examples.env_ai_down "")
                Examples.photosynthesis Hp Hk) as H.
  cbv zeta in H. cbn [auth_me Examples.env_ai_down] in H.
  rewrite H. reflexivity.
Defined.

(** In the dataset flow a request that passes the check of the inputs
    calls auth, then the completion service with the instruction built
    from the reduced data, then the store with the returned text as the
    description; the first failure ends the calls, and the store is never
    asked after a failed completion. *)
Theorem dataset_flow_calls
    (stringify : list DatasetUploader.Point -> string)
    (env : Env) (st : DatasetUploader.State) :
  DatasetUploader.parsedData st <> [] ->
  DatasetUploader.chartType st <> "" ->
  DatasetUploader.col_x (DatasetUploader.selectedColumns st) <> "" ->
  DatasetUploader.col_y (DatasetUploader.selectedColumns st) <> "" ->
  let o := run (DatasetUploader.handleGenerateChart stringify env) st in
  let data := DatasetUploader.chartData (DatasetUploader.selectedColumns st)
                (DatasetUploader.parsedData st) in
  let instruction :=
    DatasetUploader.chartPrompt stringify (DatasetUploader.chartType st)
      (DatasetUploader.selectedColumns st) data in
  match auth_me env with
  | Raise _ => externalCalls (trace o) = [AuthMe]
  | Ok user =>
      match ai_generateText env instruction "gpt-4o-mini" with
      | Raise _ =>
          externalCalls (trace o)
          = [AuthMe; GenerateText instruction "gpt-4o-mini"]
          /\ created (trace o) = []
      | Ok chartCode =>
          externalCalls (trace o)
          = [AuthMe; GenerateText instruction "gpt-4o-mini";
             DbCreate (DatasetUploader.chartDiagram stringify env user st
                         data chartCode)]
      end
  end.
Proof.
  intros Hd Hk Hx Hy o data instruction. subst o data instruction.
  unfold DatasetUploader.handleGenerateChart. run_handler.
  apply truthy_true in Hk, Hx, Hy. rewrite Hk, Hx, Hy.
  destruct (DatasetUploader.parsedData st) as [|r rs] eqn:Hp; [congruence|].
  cbv beta iota delta [negb orb List.length Nat.eqb]. run_handler.
  destruct (auth_me env) as [user|e0]; run_handler; [|reflexivity].
  match goal with
  | |- context [ai_generateText env ?i ?m] =>
      destruct (ai_generateText env i m) as [code|e1]
  end; run_handler; [|split; reflexivity].
  destruct (db_create env _) as [[]|e2]; reflexivity.
Qed.

Lemma dataset_flow_calls_witness :
  DatasetUploader.parsedData Examples.dataset <> []
  /\ List.length
       (externalCalls
          (trace (run (DatasetUploader.handleGenerateChart Examples.stringify
                         (Examples.env_ai_down "")) Examples.dataset)))
     = 2%nat.
Proof.
  assert (Hd : DatasetUploader.parsedData Examples.dataset <> [])
    by discriminate.
  assert (Hk : DatasetUploader.chartType Examples.dataset <> "")
    by discriminate.
  assert (Hx : DatasetUploader.col_x
                 (DatasetUploader.selectedColumns Examples.dataset) <> "")
    by discriminate.
  assert (Hy : DatasetUploader.col_y
                 (DatasetUploader.selectedColumns Examples.dataset) <> "")
    by discriminate.
  split; [exact Hd|].
  pose proof (dataset_flow_calls Examples.stringify (Examples.env_ai_down "")
                Examples.dataset Hd Hk Hx Hy) as H.
  cbv zeta in H. cbn [auth_me ai_generateText Examples.env_ai_down] in H.
  destruct H as [H _]. rewrite H. reflexivity.
Defined.

End CallOrder.
